(** * TeamCoherenceMonitor: scoring, alerting and trend engine

    A shallow embedding of [teamcoherencemonitor.py] and the properties of
    its core engine.

    Modelling conventions.
    - A Python [float] is an exact rational ([Q]); comparisons, [min], [max],
      [round] and [statistics.mean] are the exact ones.  Where the outcome
      depends on how the code's floats round ([get_trend],
      [import_postmortem_data]), a rational stands for the binary64 number
      nearest to it and the arithmetic rounds as binary64 does.
    - A Python [int] is a [Z]; a [str] is a [string] of ASCII characters.
    - A [datetime] is the naive calendar record that [datetime.now()] makes;
      differences and orderings go through its microsecond count.
    - [datetime.now()] is a parameter [now] of every operation that reads
      the clock: one reading for each call of the operation.  [get_trend]
      takes one reading for its cutoff and one for each team score it asks
      for.
    - A [dict] is a finite map ([gmap]); [self.agents] maps canonical agent
      names to the records the monitor owns.  The operations modelled here
      read a dictionary by key or through a mean, a count or a per-key map,
      none of which depends on the order of iteration.
    - Attribute assignments and list appends are explicit state passing:
      an operation returns the state after the call.
    - A raised exception is a [Raise] result. *)

From Stdlib Require Import ZArith QArith Qround Qabs Qpower Lqa Lia List String Ascii
  DecimalString.
From stdpp Require Import gmap strings list fin_maps.

(** ** Python primitives *)

Module Py.

Inductive exn : Type :=
| KeyError (key : string)
| ValueError
| TypeError
| StatisticsError
| OverflowError.

Inductive result (A : Type) : Type :=
| Ok (a : A)
| Raise (e : exn).
Arguments Ok {A} a.
Arguments Raise {A} e.

Definition bind {A B : Type} (r : result A) (k : A -> result B) : result B :=
  match r with
  | Ok a => k a
  | Raise e => Raise e
  end.

(** [a < b], [a <= b], [a > b], [a >= b] on floats. *)
Definition lt (a b : Q) : bool := negb (Qle_bool b a).
Definition le (a b : Q) : bool := Qle_bool a b.
Definition gt (a b : Q) : bool := lt b a.
Definition ge (a b : Q) : bool := le b a.

(** [min(a, b)] and [max(a, b)]: the first argument unless the second is
    strictly better. *)
Definition min (a b : Q) : Q := if lt b a then b else a.
Definition max (a b : Q) : Q := if gt b a then b else a.

(** Nearest integer, ties to the even one. *)
Definition round_half_even (q : Q) : Z :=
  let f := Qfloor q in
  match Qcompare (q - inject_Z f) (1 # 2) with
  | Lt => f
  | Gt => (f + 1)%Z
  | Eq => if Z.even f then f else (f + 1)%Z
  end.

(** [round(x, 1)]; the result is kept in lowest terms. *)
Definition round1 (x : Q) : Q := Qred (round_half_even (x * 10) # 10).

Definition sum (l : list Q) : Q := fold_right Qplus 0%Q l.

(** [statistics.mean]: the exact mean; an empty sample raises. *)
Definition mean (l : list Q) : result Q :=
  match l with
  | [] => Raise StatisticsError
  | _ :: _ => Ok (sum l / inject_Z (Z.of_nat (length l)))%Q
  end.

(** [min(l)] and [max(l)] over a list; an empty list raises. *)
Definition min_list (l : list Q) : result Q :=
  match l with
  | [] => Raise ValueError
  | x :: r => Ok (fold_left min r x)
  end.

Definition max_list (l : list Q) : result Q :=
  match l with
  | [] => Raise ValueError
  | x :: r => Ok (fold_left max r x)
  end.

(** Slices [l[-n:]], [l[:k]] and [l[k:]]. *)
Definition slice_last {A : Type} (n : nat) (l : list A) : list A :=
  skipn (length l - n) l.
Definition slice_to {A : Type} (k : nat) (l : list A) : list A := firstn k l.
Definition slice_from {A : Type} (k : nat) (l : list A) : list A := skipn k l.

(** [str.upper] on ASCII text. *)
Definition upper_char (c : ascii) : ascii :=
  let n := N_of_ascii c in
  if ((97 <=? n) && (n <=? 122))%N then ascii_of_N (n - 32) else c.

Fixpoint upper (s : string) : string :=
  match s with
  | EmptyString => EmptyString
  | String c r => String (upper_char c) (upper r)
  end.

(** [f'{x:.0f}']: the nearest integer in decimal; a negative value that
    rounds to zero keeps its sign. *)
Definition format_0f (x : Q) : string :=
  let r := round_half_even x in
  if lt x 0 && (r =? 0)%Z then "-0"
  else NilZero.string_of_int (Z.to_int r).

(** [f'{x:.1f}']: one decimal, the last digit rounded half to even; a
    negative value keeps its sign also when it rounds to zero. *)
Definition format_1f (x : Q) : string :=
  let r := Z.abs (round_half_even (x * 10)) in
  (if lt x 0 then "-" else "")
  +:+ NilZero.string_of_int (Z.to_int (r / 10)) +:+ "."
  +:+ NilZero.string_of_int (Z.to_int (r mod 10)).


(** *** Binary64 rounding *)

(** [floor(log2(x))] of a positive rational. *)
Definition ilog2 (x : Q) : Z :=
  let k := (Z.log2 (Qnum x) - Z.log2 (Z.pos (Qden x)))%Z in
  if Qle_bool (2 ^ k) x then k else (k - 1)%Z.

(** The exponent of the last place of the binary64 numbers around [x]:
    53 significant bits, and no place below [2^-1074]. *)
Definition ulp_exp (x : Q) : Z := Z.max (ilog2 (Qabs x) - 52) (-1074).

(** The multiple of [2^e] nearest to [x], ties to the even multiple. *)
Definition round_to (e : Z) (x : Q) : Q :=
  inject_Z (round_half_even (x / 2 ^ e)) * 2 ^ e.

(** Round to nearest, ties to even, on 53 significant bits: the binary64
    number nearest to [x], as long as the result stays below [2^1024]. *)
Definition b64_round (x : Q) : Q := Qred (round_to (ulp_exp x) x).

(** What a float operation returns: a finite number, or an infinity when
    the rounded result reaches [2^1024]. *)
Inductive float64 : Type :=
| Finite (x : Q)
| Infinite (negative : bool).

Definition b64 (x : Q) : float64 :=
  let r := b64_round x in
  if Qle_bool (2 ^ 1024) (Qabs r) then Infinite (lt r 0) else Finite r.

(** [a - b], [a * b] and [a / b] (for [b] other than zero) on finite
    floats. *)
Definition fsub (a b : Q) : float64 := b64 (a - b).

(** [x > q] and [x < q] for a float [x] and a finite [q]. *)
Definition fgt (x : float64) (q : Q) : bool :=
  match x with
  | Finite a => gt a q
  | Infinite negative => negb negative
  end.

Definition flt (x : float64) (q : Q) : bool :=
  match x with
  | Finite a => lt a q
  | Infinite negative => negative
  end.

(** [statistics.mean] of floats: the exact mean, rounded once. *)
Definition fmean (l : list Q) : result Q :=
  match mean l with
  | Ok x => Ok (b64_round x)
  | Raise e => Raise e
  end.

(** [round(x, 1)] of a float: the one-decimal number nearest to the exact
    value of [x], then the float nearest to that decimal; an infinity is
    returned as it is. *)
Definition fround1 (x : float64) : float64 :=
  match x with
  | Finite a => Finite (b64_round (round1 a))
  | Infinite negative => Infinite negative
  end.




(** The values an interchange dictionary holds.  The only list stored in
    one is a latency history. *)
Inductive value : Type :=
| VNone
| VBool (b : bool)
| VInt (n : Z)
| VFloat (x : Q)
| VStr (s : string)
| VFloats (l : list Q).

(** Truth value of [if v]. *)
Definition truthy (v : value) : bool :=
  match v with
  | VNone => false
  | VBool b => b
  | VInt n => negb (n =? 0)%Z
  | VFloat x => negb (Qeq_bool x 0)
  | VStr s => negb (String.eqb s "")
  | VFloats l => match l with [] => false | _ => true end
  end.

(** [data[key]]. *)
Definition getitem (data : gmap string value) (key : string) : result value :=
  match data !! key with
  | Some v => Ok v
  | None => Raise (KeyError key)
  end.

(** [data.get(key, default)]. *)
Definition get (data : gmap string value) (key : string) (default : value) : value :=
  match data !! key with
  | Some v => v
  | None => default
  end.

(** Reading a value at the type of the field it is stored into.  The
    records are typed: a value of another type, which Python would store
    as it is, is reported as [TypeError]. *)
Definition as_str (v : value) : result string :=
  match v with VStr s => Ok s | _ => Raise TypeError end.
Definition as_opt_str (v : value) : result (option string) :=
  match v with VStr s => Ok (Some s) | VNone => Ok None | _ => Raise TypeError end.
Definition as_bool (v : value) : result bool :=
  match v with VBool b => Ok b | _ => Raise TypeError end.
Definition as_int (v : value) : result Z :=
  match v with VInt n => Ok n | _ => Raise TypeError end.
Definition as_float (v : value) : result Q :=
  match v with VFloat x => Ok x | _ => Raise TypeError end.
Definition as_floats (v : value) : result (list Q) :=
  match v with VFloats l => Ok l | _ => Raise TypeError end.

End Py.

#[global] Instance result_bind : MBind Py.result :=
  fun A B k r => Py.bind r k.
#[global] Instance result_ret : MRet Py.result := @Py.Ok.

(** ** Naive datetimes *)

Module DateTime.

Record datetime : Type := mk {
  year : Z;
  month : Z;
  day : Z;
  hour : Z;
  minute : Z;
  second : Z;
  microsecond : Z
}.

Definition is_leap (y : Z) : bool :=
  ((y mod 4 =? 0) && (negb (y mod 100 =? 0) || (y mod 400 =? 0)))%Z.

Definition days_in_month (y m : Z) : Z :=
  if (m =? 2)%Z then (if is_leap y then 29 else 28)%Z
  else if ((m =? 4) || (m =? 6) || (m =? 9) || (m =? 11))%Z then 30%Z
  else 31%Z.

Definition days_before_month (y m : Z) : Z :=
  fold_right Z.add 0%Z
    (List.map (fun k => days_in_month y (Z.of_nat k)) (seq 1 (Z.to_nat m - 1))).

Definition days_before_year (y : Z) : Z :=
  let p := (y - 1)%Z in (p * 365 + p / 4 - p / 100 + p / 400)%Z.

(** [d.toordinal()]: day 1 is 0001-01-01. *)
Definition toordinal (d : datetime) : Z :=
  (days_before_year (year d) + days_before_month (year d) (month d) + day d)%Z.

(** Microseconds from the start of day 0; [a - b] and [a > b] on
    datetimes are the difference and the order of these counts. *)
Definition to_micros (d : datetime) : Z :=
  ((((toordinal d * 24 + hour d) * 60 + minute d) * 60 + second d) * 1000000
   + microsecond d)%Z.

(** [(a - b).total_seconds()]. *)
Definition seconds_between (a b : datetime) : Q :=
  (to_micros a - to_micros b)%Z # 1000000.

(** A [timedelta], in microseconds. *)
Definition timedelta_hours (h : Z) : Z := (h * 3600000000)%Z.
Definition timedelta_minutes (m : Z) : Z := (m * 60000000)%Z.

(** [d > base - delta], through the microsecond counts; [base - delta] is
    itself a datetime for every [base] that is [delta] later than year 1. *)
Definition after_cutoff (d base : datetime) (delta : Z) : bool :=
  (to_micros d >? to_micros base - delta)%Z.

(** [timedelta(minutes=m)], in microseconds: a timedelta holds at most
    999999999 days in either direction. *)
Definition timedelta_of_minutes (m : Z) : Py.result Z :=
  let us := timedelta_minutes m in
  let days := (us / 86400000000)%Z in
  if ((-999999999 <=? days) && (days <=? 999999999))%Z
  then Py.Ok us else Py.Raise Py.OverflowError.

(** The microsecond counts of [datetime.min] and [datetime.max]. *)
Definition min_micros : Z := to_micros (mk 1 1 1 0 0 0 0).
Definition max_micros : Z := to_micros (mk 9999 12 31 23 59 59 999999).

(** [base - delta], as the microsecond count of the resulting datetime;
    a result before year 1 or after year 9999 raises. *)
Definition sub_timedelta (base : datetime) (delta : Z) : Py.result Z :=
  let us := (to_micros base - delta)%Z in
  if ((min_micros <=? us) && (us <=? max_micros))%Z
  then Py.Ok us else Py.Raise Py.OverflowError.

(** The ranges every datetime object satisfies. *)
Definition valid (d : datetime) : bool :=
  ((1 <=? year d) && (year d <=? 9999) &&
   (1 <=? month d) && (month d <=? 12) &&
   (1 <=? day d) && (day d <=? days_in_month (year d) (month d)) &&
   (0 <=? hour d) && (hour d <? 24) &&
   (0 <=? minute d) && (minute d <? 60) &&
   (0 <=? second d) && (second d <? 60) &&
   (0 <=? microsecond d) && (microsecond d <? 1000000))%Z.

Definition digit_char (d : Z) : ascii := ascii_of_N (48 + Z.to_N d).

Definition digit_val (c : ascii) : option Z :=
  let n := N_of_ascii c in
  if ((48 <=? n) && (n <=? 57))%N then Some (Z.of_N (n - 48)) else None.

(** [n] written with exactly [w] decimal digits, zero padded. *)
Fixpoint digits (w : nat) (n : Z) : list ascii :=
  match w with
  | O => []
  | S w' => digits w' (n / 10) ++ [digit_char (n mod 10)]
  end.

Definition number (cs : list ascii) : option Z :=
  fold_left
    (fun acc c =>
       match acc, digit_val c with
       | Some a, Some d => Some (10 * a + d)%Z
       | _, _ => None
       end)
    cs (Some 0%Z).

(** [d.isoformat()]: [YYYY-MM-DDTHH:MM:SS], followed by [.ffffff] when the
    microsecond is not zero. *)
Definition isoformat (d : datetime) : string :=
  string_of_list_ascii
    (digits 4 (year d) ++ "-"%char :: digits 2 (month d) ++ "-"%char ::
     digits 2 (day d) ++ "T"%char :: digits 2 (hour d) ++ ":"%char ::
     digits 2 (minute d) ++ ":"%char :: digits 2 (second d) ++
     (if (microsecond d =? 0)%Z then []
      else "."%char :: digits 6 (microsecond d))).

(** [datetime.fromisoformat] on the two layouts [isoformat] writes; the
    character between date and time is free, as in the library.  Any
    other text raises [ValueError]. *)
Definition fromisoformat (s : string) : Py.result datetime :=
  match list_ascii_of_string s with
  | y1 :: y2 :: y3 :: y4 :: a :: m1 :: m2 :: b :: d1 :: d2 :: _ ::
    h1 :: h2 :: c :: n1 :: n2 :: e :: s1 :: s2 :: frac =>
      let us :=
        match frac with
        | [] => Some 0%Z
        | [p; u1; u2; u3; u4; u5; u6] =>
            if Ascii.eqb p "."%char then number [u1; u2; u3; u4; u5; u6]
            else None
        | _ => None
        end in
      if Ascii.eqb a "-"%char && Ascii.eqb b "-"%char &&
         Ascii.eqb c ":"%char && Ascii.eqb e ":"%char
      then
        match number [y1; y2; y3; y4], number [m1; m2], number [d1; d2],
              number [h1; h2], number [n1; n2], number [s1; s2], us with
        | Some y, Some m, Some d, Some h, Some n, Some sec, Some u =>
            let r := mk y m d h n sec u in
            if valid r then Py.Ok r else Py.Raise Py.ValueError
        | _, _, _, _, _, _, _ => Py.Raise Py.ValueError
        end
      else Py.Raise Py.ValueError
  | _ => Py.Raise Py.ValueError
  end.

End DateTime.

(** ** Data classes *)

Module AgentStatus.

(** Tracks current status for a single agent. *)
Record t : Type := mk {
  name : string;
  last_seen : option DateTime.datetime;
  is_active : bool;
  response_latencies : list Q;
  mentions_received : Z;
  mentions_acknowledged : Z;
  correct_claims : Z;
  total_claims : Z;
  messages_sent : Z;
  errors_detected : Z
}.

(** [AgentStatus(name=name)]: every other field at its default. *)
Definition new (n : string) : t := mk n None false [] 0 0 0 0 0 0.

Definition set_last_seen (v : option DateTime.datetime) (a : t) : t :=
  mk (name a) v (is_active a) (response_latencies a) (mentions_received a)
     (mentions_acknowledged a) (correct_claims a) (total_claims a)
     (messages_sent a) (errors_detected a).
Definition set_is_active (v : bool) (a : t) : t :=
  mk (name a) (last_seen a) v (response_latencies a) (mentions_received a)
     (mentions_acknowledged a) (correct_claims a) (total_claims a)
     (messages_sent a) (errors_detected a).
Definition set_response_latencies (v : list Q) (a : t) : t :=
  mk (name a) (last_seen a) (is_active a) v (mentions_received a)
     (mentions_acknowledged a) (correct_claims a) (total_claims a)
     (messages_sent a) (errors_detected a).
Definition set_mentions_received (v : Z) (a : t) : t :=
  mk (name a) (last_seen a) (is_active a) (response_latencies a) v
     (mentions_acknowledged a) (correct_claims a) (total_claims a)
     (messages_sent a) (errors_detected a).
Definition set_mentions_acknowledged (v : Z) (a : t) : t :=
  mk (name a) (last_seen a) (is_active a) (response_latencies a)
     (mentions_received a) v (correct_claims a) (total_claims a)
     (messages_sent a) (errors_detected a).
Definition set_correct_claims (v : Z) (a : t) : t :=
  mk (name a) (last_seen a) (is_active a) (response_latencies a)
     (mentions_received a) (mentions_acknowledged a) v (total_claims a)
     (messages_sent a) (errors_detected a).
Definition set_total_claims (v : Z) (a : t) : t :=
  mk (name a) (last_seen a) (is_active a) (response_latencies a)
     (mentions_received a) (mentions_acknowledged a) (correct_claims a) v
     (messages_sent a) (errors_detected a).
Definition set_messages_sent (v : Z) (a : t) : t :=
  mk (name a) (last_seen a) (is_active a) (response_latencies a)
     (mentions_received a) (mentions_acknowledged a) (correct_claims a)
     (total_claims a) v (errors_detected a).
Definition set_errors_detected (v : Z) (a : t) : t :=
  mk (name a) (last_seen a) (is_active a) (response_latencies a)
     (mentions_received a) (mentions_acknowledged a) (correct_claims a)
     (total_claims a) (messages_sent a) v.

(** Mention acknowledgment rate; the division is guarded by the test on
    the denominator. *)
Definition ack_rate (self : t) : Q :=
  if (mentions_received self =? 0)%Z then 100.0%Q
  else ((inject_Z (mentions_acknowledged self) / inject_Z (mentions_received self))
        * 100)%Q.

(** Average response latency in seconds; the mean of a non-empty history
    never raises, and [0.0] stands in the unreachable arm. *)
Definition avg_latency (self : t) : Q :=
  match response_latencies self with
  | [] => 0.0%Q
  | l => match Py.mean l with Py.Ok m => m | Py.Raise _ => 0.0%Q end
  end.

(** Context fidelity (claim accuracy). *)
Definition context_fidelity (self : t) : Q :=
  if (total_claims self =? 0)%Z then 100.0%Q
  else ((inject_Z (correct_claims self) / inject_Z (total_claims self)) * 100)%Q.

Definition to_dict (self : t) : gmap string Py.value :=
  <["name" := Py.VStr (name self)]>
  (<["last_seen" := match last_seen self with
                    | Some d => Py.VStr (DateTime.isoformat d)
                    | None => Py.VNone
                    end]>
  (<["is_active" := Py.VBool (is_active self)]>
  (<["response_latencies" := Py.VFloats (Py.slice_last 100 (response_latencies self))]>
  (<["mentions_received" := Py.VInt (mentions_received self)]>
  (<["mentions_acknowledged" := Py.VInt (mentions_acknowledged self)]>
  (<["correct_claims" := Py.VInt (correct_claims self)]>
  (<["total_claims" := Py.VInt (total_claims self)]>
  (<["messages_sent" := Py.VInt (messages_sent self)]>
  (<["errors_detected" := Py.VInt (errors_detected self)]> ∅))))))))).

Definition from_dict (data : gmap string Py.value) : Py.result t :=
  n ← Py.getitem data "name" ≫= Py.as_str;
  ls ← (if Py.truthy (Py.get data "last_seen" Py.VNone)
        then s ← Py.getitem data "last_seen" ≫= Py.as_str;
             d ← DateTime.fromisoformat s;
             Py.Ok (Some d)
        else Py.Ok None);
  act ← Py.as_bool (Py.get data "is_active" (Py.VBool false));
  lat ← Py.as_floats (Py.get data "response_latencies" (Py.VFloats []));
  mr ← Py.as_int (Py.get data "mentions_received" (Py.VInt 0));
  ma ← Py.as_int (Py.get data "mentions_acknowledged" (Py.VInt 0));
  cc ← Py.as_int (Py.get data "correct_claims" (Py.VInt 0));
  tc ← Py.as_int (Py.get data "total_claims" (Py.VInt 0));
  ms ← Py.as_int (Py.get data "messages_sent" (Py.VInt 0));
  ed ← Py.as_int (Py.get data "errors_detected" (Py.VInt 0));
  Py.Ok (mk n ls act lat mr ma cc tc ms ed).

End AgentStatus.

Module Alert.

(** Represents a coordination alert. *)
Record t : Type := mk {
  timestamp : DateTime.datetime;
  severity : string;
  agent : option string;
  metric : string;
  message : string;
  value : Q;
  threshold : Q
}.

Definition to_dict (self : t) : gmap string Py.value :=
  <["timestamp" := Py.VStr (DateTime.isoformat (timestamp self))]>
  (<["severity" := Py.VStr (severity self)]>
  (<["agent" := match agent self with
                | Some n => Py.VStr n
                | None => Py.VNone
                end]>
  (<["metric" := Py.VStr (metric self)]>
  (<["message" := Py.VStr (message self)]>
  (<["value" := Py.VFloat (value self)]>
  (<["threshold" := Py.VFloat (threshold self)]> ∅)))))).

Definition from_dict (data : gmap string Py.value) : Py.result t :=
  ts ← (Py.getitem data "timestamp" ≫= Py.as_str) ≫= DateTime.fromisoformat;
  sev ← Py.getitem data "severity" ≫= Py.as_str;
  ag ← Py.as_opt_str (Py.get data "agent" Py.VNone);
  met ← Py.getitem data "metric" ≫= Py.as_str;
  msg ← Py.getitem data "message" ≫= Py.as_str;
  v ← Py.getitem data "value" ≫= Py.as_float;
  th ← Py.getitem data "threshold" ≫= Py.as_float;
  Py.Ok (mk ts sev ag met msg v th).

End Alert.

Module CoherenceSnapshot.

(** Point-in-time snapshot of team coherence. *)
Record t : Type := mk {
  timestamp : DateTime.datetime;
  overall_score : Q;
  agent_scores : gmap string Q;
  active_agents : Z;
  total_agents : Z;
  alerts_active : Z
}.

End CoherenceSnapshot.

Module Thresholds.

(** Configurable thresholds for alerts and scoring. *)
Record t : Type := mk {
  latency_warning : Q;
  latency_critical : Q;
  ack_rate_warning : Q;
  ack_rate_critical : Q;
  fidelity_warning : Q;
  fidelity_critical : Q;
  inactive_warning : Q;
  inactive_critical : Q;
  coherence_warning : Q;
  coherence_critical : Q
}.

(** [Thresholds()]. *)
Definition default : t :=
  mk 30.0 60.0 80.0 60.0 90.0 70.0 120.0 300.0 75.0 50.0.

Definition dataclass_fields : list string :=
  ["latency_warning"; "latency_critical"; "ack_rate_warning";
   "ack_rate_critical"; "fidelity_warning"; "fidelity_critical";
   "inactive_warning"; "inactive_critical"; "coherence_warning";
   "coherence_critical"].

(** [asdict(self)]. *)
Definition to_dict (self : t) : gmap string Py.value :=
  <["latency_warning" := Py.VFloat (latency_warning self)]>
  (<["latency_critical" := Py.VFloat (latency_critical self)]>
  (<["ack_rate_warning" := Py.VFloat (ack_rate_warning self)]>
  (<["ack_rate_critical" := Py.VFloat (ack_rate_critical self)]>
  (<["fidelity_warning" := Py.VFloat (fidelity_warning self)]>
  (<["fidelity_critical" := Py.VFloat (fidelity_critical self)]>
  (<["inactive_warning" := Py.VFloat (inactive_warning self)]>
  (<["inactive_critical" := Py.VFloat (inactive_critical self)]>
  (<["coherence_warning" := Py.VFloat (coherence_warning self)]>
  (<["coherence_critical" := Py.VFloat (coherence_critical self)]> ∅))))))))).

(** A keyword argument of the constructor call: the entry when present,
    the field's default otherwise. *)
Definition kwarg (kwargs : gmap string Py.value) (key : string) (dflt : Q)
  : Py.result Q :=
  match kwargs !! key with
  | Some v => Py.as_float v
  | None => Py.Ok dflt
  end.

Definition from_dict (data : gmap string Py.value) : Py.result t :=
  let kwargs :=
    filter (fun kv : string * Py.value => kv.1 ∈ dataclass_fields) data in
  lw ← kwarg kwargs "latency_warning" (latency_warning default);
  lc ← kwarg kwargs "latency_critical" (latency_critical default);
  aw ← kwarg kwargs "ack_rate_warning" (ack_rate_warning default);
  ac ← kwarg kwargs "ack_rate_critical" (ack_rate_critical default);
  fw ← kwarg kwargs "fidelity_warning" (fidelity_warning default);
  fc ← kwarg kwargs "fidelity_critical" (fidelity_critical default);
  iw ← kwarg kwargs "inactive_warning" (inactive_warning default);
  ic ← kwarg kwargs "inactive_critical" (inactive_critical default);
  cw ← kwarg kwargs "coherence_warning" (coherence_warning default);
  cc ← kwarg kwargs "coherence_critical" (coherence_critical default);
  Py.Ok (mk lw lc aw ac fw fc iw ic cw cc).

End Thresholds.

(** ** Coherence scorer *)

Module CoherenceScorer.

Record t : Type := mk { thresholds : Thresholds.t }.

Local Open Scope Q_scope.

Definition WEIGHTS_ack_rate : Q := 0.30.
Definition WEIGHTS_latency : Q := 0.25.
Definition WEIGHTS_fidelity : Q := 0.30.
Definition WEIGHTS_activity : Q := 0.15.

(** Score latency (0-100, lower latency = higher score).  The linear arm
    is reached only for [5 < avg_latency < latency_critical], so its divisor
    is positive. *)
Definition score_latency (self : t) (avg_latency : Q) : Q :=
  if Py.le avg_latency 0 then 100.0
  else if Py.ge avg_latency (Thresholds.latency_critical (thresholds self)) then 0.0
  else if Py.le avg_latency 5.0 then 100.0
  else
    let range_size := Thresholds.latency_critical (thresholds self) - 5.0 in
    let score := 100 - ((avg_latency - 5.0) / range_size * 100) in
    Py.max 0.0 (Py.min 100.0 score).

(** Score activity status (0-100, recent = higher score). *)
Definition score_activity (self : t) (seconds_since_seen : Q) : Q :=
  if Py.le seconds_since_seen 0 then 100.0
  else if Py.ge seconds_since_seen (Thresholds.inactive_critical (thresholds self)) then 0.0
  else if Py.le seconds_since_seen 30 then 100.0
  else
    let range_size := Thresholds.inactive_critical (thresholds self) - 30.0 in
    let score := 100 - ((seconds_since_seen - 30.0) / range_size * 100) in
    Py.max 0.0 (Py.min 100.0 score).

(** Seconds since the agent was seen; unknown counts as inactive. *)
Definition seconds_since (self : t) (agent : AgentStatus.t)
    (now : DateTime.datetime) : Q :=
  match AgentStatus.last_seen agent with
  | Some seen => DateTime.seconds_between now seen
  | None => Thresholds.inactive_critical (thresholds self)
  end.

(** Coherence score for a single agent. *)
Definition calculate_agent_score (self : t) (agent : AgentStatus.t)
    (now : DateTime.datetime) : Q :=
  let ack_score := AgentStatus.ack_rate agent in
  let latency_score := score_latency self (AgentStatus.avg_latency agent) in
  let fidelity_score := AgentStatus.context_fidelity agent in
  let activity_score := score_activity self (seconds_since self agent now) in
  let total :=
    ack_score * WEIGHTS_ack_rate +
    latency_score * WEIGHTS_latency +
    fidelity_score * WEIGHTS_fidelity +
    activity_score * WEIGHTS_activity in
  Py.round1 total.

(** [agent_scores.values()]. *)
Definition values (scores : gmap string Q) : list Q := (map_to_list scores).*2.

(** Team coherence score: [(overall_score, agent_scores_dict)]. *)
Definition calculate_team_score (self : t) (agents : gmap string AgentStatus.t)
    (now : DateTime.datetime) : Py.result (Q * gmap string Q) :=
  if bool_decide (agents = ∅) then Py.Ok (100.0, ∅)
  else
    let agent_scores := (fun agent => calculate_agent_score self agent now) <$> agents in
    overall ← (if bool_decide (agent_scores = ∅) then Py.Ok 100.0
               else Py.mean (values agent_scores));
    Py.Ok (Py.round1 overall, agent_scores).

End CoherenceScorer.

(** ** Alert system *)

Module AlertSystem.

Record t : Type := mk {
  thresholds : Thresholds.t;
  active_alerts : list Alert.t;
  alert_history : list Alert.t
}.

(** [AlertSystem(thresholds)]. *)
Definition new (th : Thresholds.t) : t := mk th [] [].

(** Check an agent's metrics and generate alerts if needed. *)
Definition check_agent (self : t) (agent : AgentStatus.t)
    (now : DateTime.datetime) : list Alert.t :=
  let th := thresholds self in
  let name := AgentStatus.name agent in
  let alerts := [] in
  (* Check acknowledgment rate *)
  let ack_rate := AgentStatus.ack_rate agent in
  let alerts :=
    if (AgentStatus.mentions_received agent >? 0)%Z then
      if Py.lt ack_rate (Thresholds.ack_rate_critical th) then
        alerts ++ [Alert.mk now "CRITICAL" (Some name) "ack_rate"
                     (name +:+ " acknowledgment rate critically low")
                     ack_rate (Thresholds.ack_rate_critical th)]
      else if Py.lt ack_rate (Thresholds.ack_rate_warning th) then
        alerts ++ [Alert.mk now "WARNING" (Some name) "ack_rate"
                     (name +:+ " acknowledgment rate below threshold")
                     ack_rate (Thresholds.ack_rate_warning th)]
      else alerts
    else alerts in
  (* Check latency *)
  let avg_latency := AgentStatus.avg_latency agent in
  let alerts :=
    if Py.gt avg_latency 0%Q then
      if Py.ge avg_latency (Thresholds.latency_critical th) then
        alerts ++ [Alert.mk now "CRITICAL" (Some name) "latency"
                     (name +:+ " response latency critically high")
                     avg_latency (Thresholds.latency_critical th)]
      else if Py.ge avg_latency (Thresholds.latency_warning th) then
        alerts ++ [Alert.mk now "WARNING" (Some name) "latency"
                     (name +:+ " response latency high")
                     avg_latency (Thresholds.latency_warning th)]
      else alerts
    else alerts in
  (* Check context fidelity *)
  let fidelity := AgentStatus.context_fidelity agent in
  let alerts :=
    if (AgentStatus.total_claims agent >? 0)%Z then
      if Py.lt fidelity (Thresholds.fidelity_critical th) then
        alerts ++ [Alert.mk now "CRITICAL" (Some name) "fidelity"
                     (name +:+ " context fidelity critically low")
                     fidelity (Thresholds.fidelity_critical th)]
      else if Py.lt fidelity (Thresholds.fidelity_warning th) then
        alerts ++ [Alert.mk now "WARNING" (Some name) "fidelity"
                     (name +:+ " context fidelity below threshold")
                     fidelity (Thresholds.fidelity_warning th)]
      else alerts
    else alerts in
  (* Check activity *)
  match AgentStatus.last_seen agent with
  | Some seen =>
      let seconds_inactive := DateTime.seconds_between now seen in
      if Py.ge seconds_inactive (Thresholds.inactive_critical th) then
        alerts ++ [Alert.mk now "CRITICAL" (Some name) "activity"
                     (name +:+ " has been inactive for " +:+
                      Py.format_0f seconds_inactive +:+ "s")
                     seconds_inactive (Thresholds.inactive_critical th)]
      else if Py.ge seconds_inactive (Thresholds.inactive_warning th) then
        alerts ++ [Alert.mk now "WARNING" (Some name) "activity"
                     (name +:+ " inactive for " +:+
                      Py.format_0f seconds_inactive +:+ "s")
                     seconds_inactive (Thresholds.inactive_warning th)]
      else alerts
  | None => alerts
  end.

(** Process new alerts (add to active/history).  The loop appends each
    alert to both lists; then the active list keeps the last hour and the
    history its last 1000 entries. *)
Definition process_alerts (self : t) (alerts : list Alert.t)
    (now : DateTime.datetime) : t :=
  let '(active, history) :=
    fold_left (fun st alert => (st.1 ++ [alert], st.2 ++ [alert]))
              alerts (active_alerts self, alert_history self) in
  let active :=
    List.filter
      (fun a => DateTime.after_cutoff (Alert.timestamp a) now
                  (DateTime.timedelta_hours 1))
      active in
  let history :=
    if (1000 <? length history)%nat then Py.slice_last 1000 history
    else history in
  mk (thresholds self) active history.

(** Active alerts, optionally filtered by severity. *)
Definition get_active_alerts (self : t) (severity : option string) : list Alert.t :=
  match severity with
  | Some sev =>
      if negb (String.eqb sev "")
      then List.filter (fun a => String.eqb (Alert.severity a) sev) (active_alerts self)
      else active_alerts self
  | None => active_alerts self
  end.

(** The condition of the comprehension in [clear_alerts]: the alert
    stays. *)
Definition kept (agent metric : option string) (a : Alert.t) : bool :=
  (bool_decide (agent = None) || bool_decide (Alert.agent a ≠ agent)) &&
  (bool_decide (metric = None) || bool_decide (Some (Alert.metric a) ≠ metric)).

(** Clear active alerts matching criteria; returns the new state and the
    number of alerts cleared. *)
Definition clear_alerts (self : t) (agent metric : option string) : t * Z :=
  let before := length (active_alerts self) in
  let active := List.filter (kept agent metric) (active_alerts self) in
  (mk (thresholds self) active (alert_history self),
   (Z.of_nat before - Z.of_nat (length active))%Z).

(** Check team coherence score and generate alert if needed. *)
Definition check_team_coherence (self : t) (score : Q) (now : DateTime.datetime)
  : option Alert.t :=
  if Py.lt score (Thresholds.coherence_critical (thresholds self)) then
    Some (Alert.mk now "CRITICAL" None "coherence"
            ("Team coherence critically low: " +:+ Py.format_1f score)
            score (Thresholds.coherence_critical (thresholds self)))
  else if Py.lt score (Thresholds.coherence_warning (thresholds self)) then
    Some (Alert.mk now "WARNING" None "coherence"
            ("Team coherence below threshold: " +:+ Py.format_1f score)
            score (Thresholds.coherence_warning (thresholds self)))
  else None.

End AlertSystem.

(** ** The monitor *)

Module TeamCoherenceMonitor.

(** The result dictionary of [get_trend]. *)
Record trend_info : Type := mk_trend {
  trend : string;
  change : Py.float64;
  samples : Z;
  min_score : Q;
  max_score : Q;
  avg_score : Q
}.

(** The monitor's state; the scorer and the alert system are built from
    the monitor's thresholds. *)
Record t : Type := mk {
  thresholds : Thresholds.t;
  agents : gmap string AgentStatus.t;
  scorer : CoherenceScorer.t;
  alerts : AlertSystem.t;
  snapshots : list CoherenceSnapshot.t
}.

(** [TeamCoherenceMonitor(thresholds=th, auto_load=False)]. *)
Definition new (th : Thresholds.t) : t :=
  mk th ∅ (CoherenceScorer.mk th) (AlertSystem.new th) [].

Definition set_agents (v : gmap string AgentStatus.t) (self : t) : t :=
  mk (thresholds self) v (scorer self) (alerts self) (snapshots self).
Definition set_alerts (v : AlertSystem.t) (self : t) : t :=
  mk (thresholds self) (agents self) (scorer self) v (snapshots self).
Definition set_snapshots (v : list CoherenceSnapshot.t) (self : t) : t :=
  mk (thresholds self) (agents self) (scorer self) (alerts self) v.

(** Register an agent for monitoring; returns the record held in the
    table under the canonical name. *)
Definition register_agent (self : t) (name : string) : t * AgentStatus.t :=
  let name := Py.upper name in
  match agents self !! name with
  | Some agent => (self, agent)
  | None =>
      let agent := AgentStatus.new name in
      (set_agents (<[name := agent]> (agents self)) self, agent)
  end.

(** Remove an agent from monitoring. *)
Definition unregister_agent (self : t) (name : string) : t * bool :=
  let name := Py.upper name in
  match agents self !! name with
  | Some _ => (set_agents (delete name (agents self)) self, true)
  | None => (self, false)
  end.

(** Get agent status by name. *)
Definition get_agent (self : t) (name : string) : option AgentStatus.t :=
  agents self !! Py.upper name.

(** The recording operations fetch the record with [register_agent] and
    assign to its attributes; the record is the one the table holds under
    the canonical name, so the assignments land there. *)
Definition update_agent (self : t) (agent_name : string)
    (f : AgentStatus.t -> AgentStatus.t) : t :=
  let '(self, agent) := register_agent self agent_name in
  set_agents (<[Py.upper agent_name := f agent]> (agents self)) self.

(** Record agent activity (update last_seen). *)
Definition record_activity (self : t) (agent_name : string)
    (now : DateTime.datetime) : t :=
  update_agent self agent_name (fun agent =>
    let agent := AgentStatus.set_last_seen (Some now) agent in
    AgentStatus.set_is_active true agent).

(** Record a mention event for an agent. *)
Definition record_mention (self : t) (agent_name : string) (acknowledged : bool) : t :=
  update_agent self agent_name (fun agent =>
    let agent :=
      AgentStatus.set_mentions_received (AgentStatus.mentions_received agent + 1) agent in
    if acknowledged
    then AgentStatus.set_mentions_acknowledged
           (AgentStatus.mentions_acknowledged agent + 1) agent
    else agent).

(** Record that an agent acknowledged a previous mention. *)
Definition record_acknowledgment (self : t) (agent_name : string) : t :=
  update_agent self agent_name (fun agent =>
    AgentStatus.set_mentions_acknowledged
      (AgentStatus.mentions_acknowledged agent + 1) agent).

(** Record a response latency for an agent. *)
Definition record_response (self : t) (agent_name : string) (latency : Q)
    (now : DateTime.datetime) : t :=
  update_agent self agent_name (fun agent =>
    let agent :=
      AgentStatus.set_response_latencies
        (AgentStatus.response_latencies agent ++ [latency]) agent in
    let agent := AgentStatus.set_last_seen (Some now) agent in
    let agent :=
      AgentStatus.set_messages_sent (AgentStatus.messages_sent agent + 1) agent in
    (* Keep only last 100 latencies *)
    if (100 <? length (AgentStatus.response_latencies agent))%nat
    then AgentStatus.set_response_latencies
           (Py.slice_last 100 (AgentStatus.response_latencies agent)) agent
    else agent).

(** Record a claim accuracy event (for context fidelity). *)
Definition record_claim (self : t) (agent_name : string) (correct : bool) : t :=
  update_agent self agent_name (fun agent =>
    let agent := AgentStatus.set_total_claims (AgentStatus.total_claims agent + 1) agent in
    if correct
    then AgentStatus.set_correct_claims (AgentStatus.correct_claims agent + 1) agent
    else agent).

(** Record an error detected for an agent. *)
Definition record_error (self : t) (agent_name : string) : t :=
  update_agent self agent_name (fun agent =>
    AgentStatus.set_errors_detected (AgentStatus.errors_detected agent + 1) agent).

(** Current team coherence score. *)
Definition get_coherence_score (self : t) (now : DateTime.datetime) : Py.result Q :=
  r ← CoherenceScorer.calculate_team_score (scorer self) (agents self) now;
  Py.Ok r.1.

(** Coherence scores for all agents. *)
Definition get_agent_scores (self : t) (now : DateTime.datetime)
  : Py.result (gmap string Q) :=
  r ← CoherenceScorer.calculate_team_score (scorer self) (agents self) now;
  Py.Ok r.2.

(** Take a point-in-time snapshot of team coherence. *)
Definition take_snapshot (self : t) (now : DateTime.datetime)
  : Py.result (t * CoherenceSnapshot.t) :=
  r ← CoherenceScorer.calculate_team_score (scorer self) (agents self) now;
  let active_count :=
    length (List.filter (fun kv => AgentStatus.is_active kv.2)
                        (map_to_list (agents self))) in
  let snapshot :=
    CoherenceSnapshot.mk now r.1 r.2 (Z.of_nat active_count)
      (Z.of_nat (size (agents self)))
      (Z.of_nat (length (AlertSystem.active_alerts (alerts self)))) in
  let snaps := snapshots self ++ [snapshot] in
  let snaps :=
    if (1000 <? length snaps)%nat then Py.slice_last 1000 snaps else snaps in
  Py.Ok (set_snapshots snaps self, snapshot).

(** The snapshots inside the window: those after the cutoff, in history
    order. *)
Definition recent_snapshots (self : t) (cutoff : Z) : list CoherenceSnapshot.t :=
  List.filter
    (fun s => (DateTime.to_micros (CoherenceSnapshot.timestamp s) >? cutoff)%Z)
    (snapshots self).

(** The classification of [get_trend]. *)
Definition classify (change : Py.float64) : string :=
  if Py.fgt change 5 then "IMPROVING"
  else if Py.flt change (-5) then "DEGRADING"
  else "STABLE".

(** Coherence trend over time.  [now] is the clock reading of the cutoff;
    [t_min], [t_max] and [t_avg] are the readings of the three
    [get_coherence_score] calls of the short branch, in the order the
    dictionary is built.  A stored score stands for the float nearest to
    it, and the means, their difference and the roundings are those of
    binary64. *)
Definition get_trend (self : t) (minutes : Z)
    (now t_min t_max t_avg : DateTime.datetime) : Py.result trend_info :=
  delta ← DateTime.timedelta_of_minutes minutes;
  cutoff ← DateTime.sub_timedelta now delta;
  let recent := recent_snapshots self cutoff in
  if (length recent <? 2)%nat then
    lo ← get_coherence_score self t_min;
    hi ← get_coherence_score self t_max;
    av ← get_coherence_score self t_avg;
    Py.Ok (mk_trend "STABLE" (Py.Finite 0.0) (Z.of_nat (length recent)) lo hi av)
  else
    let scores :=
      List.map (fun s => Py.b64_round (CoherenceSnapshot.overall_score s)) recent in
    let first_half := Py.slice_to (length scores / 2) scores in
    let second_half := Py.slice_from (length scores / 2) scores in
    avg_first ← Py.fmean first_half;
    avg_second ← Py.fmean second_half;
    let change := Py.fsub avg_second avg_first in
    let trend := classify change in
    lo ← Py.min_list scores;
    hi ← Py.max_list scores;
    av ← Py.fmean scores;
    Py.Ok (mk_trend trend (Py.fround1 change) (Z.of_nat (length recent))
             lo hi (Py.b64_round (Py.round1 av))).


(** Clear active alerts. *)
Definition clear_alerts (self : t) (agent : option string) : t * Z :=
  let '(sys, n) := AlertSystem.clear_alerts (alerts self) agent None in
  (set_alerts sys self, n).

(** Check all agents and team coherence for alerts.  The loop visits
    [self.agents.values()] in the dictionary's own order, which the finite
    map does not keep: [order] lists the table's keys in that order. *)
Definition check_all_alerts (self : t) (order : list string)
    (now : DateTime.datetime) : Py.result (t * list Alert.t) :=
  let new_alerts :=
    fold_left
      (fun acc name =>
         match agents self !! name with
         | Some agent => acc ++ AlertSystem.check_agent (alerts self) agent now
         | None => acc
         end)
      order [] in
  score ← get_coherence_score self now;
  let new_alerts :=
    match AlertSystem.check_team_coherence (alerts self) score now with
    | Some coherence_alert => new_alerts ++ [coherence_alert]
    | None => new_alerts
    end in
  Py.Ok (set_alerts (AlertSystem.process_alerts (alerts self) new_alerts now) self,
         new_alerts).


(** Import data from MentionGuard tool: one [record_mention] for every
    event that names an agent; returns the number of events imported.
    [data] maps a key to a list of event dictionaries. *)
Definition import_mentionguard_data (self : t)
    (data : gmap string (list (gmap string Py.value))) : Py.result (t * Z) :=
  fold_left
    (fun st event =>
       st ← st;
       let agent := Py.get event "agent" Py.VNone in
       if Py.truthy agent then
         name ← Py.as_str agent;
         Py.Ok (record_mention st.1 name
                  (Py.truthy (Py.get event "acknowledged" (Py.VBool false))),
                (st.2 + 1)%Z)
       else Py.Ok st)
    (default [] (data !! "events")) (Py.Ok (self, 0%Z)).

(** Import data from LiveAudit tool: an incorrect claim and an error for
    every issue that names an agent. *)
Definition import_liveaudit_data (self : t)
    (data : gmap string (list (gmap string Py.value))) : Py.result (t * Z) :=
  fold_left
    (fun st issue =>
       st ← st;
       let agent := Py.get issue "agent" Py.VNone in
       if Py.truthy agent then
         name ← Py.as_str agent;
         Py.Ok (record_error (record_claim st.1 name false) name, (st.2 + 1)%Z)
       else Py.Ok st)
    (default [] (data !! "issues")) (Py.Ok (self, 0%Z)).



End TeamCoherenceMonitor.

(** ** Vocabulary of the statements *)

(** A fixed instant for the worked examples. *)
Definition noon : DateTime.datetime := DateTime.mk 2026 1 25 12 0 0 0.

(** An alert on [metric] for [agent], raised at [noon]. *)
Definition sample_alert (agent : option string) (metric : string) : Alert.t :=
  Alert.mk noon "WARNING" agent metric "Test alert" 75.0 80.0.

(** An alert matches the filters of [clear_alerts] when it agrees with every
    filter that was supplied. *)
Definition matches_every_filter (agent metric : option string) (a : Alert.t) : Prop :=
  (forall g, agent = Some g -> Alert.agent a = Some g) /\
  (forall k, metric = Some k -> Alert.metric a = k).

(** The latency history of the agent [name] refers to, empty when the name
    is not registered. *)
Definition latencies_of (m : TeamCoherenceMonitor.t) (name : string) : list Q :=
  match TeamCoherenceMonitor.get_agent m name with
  | Some agent => AgentStatus.response_latencies agent
  | None => []
  end.

(** A run of [record_response] calls for one agent, each with its latency
    and the clock reading of the call. *)
Definition record_responses (m : TeamCoherenceMonitor.t) (name : string)
    (calls : list (Q * DateTime.datetime)) : TeamCoherenceMonitor.t :=
  fold_left (fun st c => TeamCoherenceMonitor.record_response st name c.1 c.2) calls m.

(** The alerts of a list that carry a given metric tag. *)
Definition alerts_on (metric : string) (l : list Alert.t) : list Alert.t :=
  List.filter (fun a => String.eqb (Alert.metric a) metric) l.

(** The four conditions [check_agent] evaluates, by metric tag: whether the
    metric's signal is present, and whether the value crosses the critical
    or the warning threshold in the metric's direction. *)
Definition signal_present (agent : AgentStatus.t) (metric : string) : bool :=
  if String.eqb metric "ack_rate" then (AgentStatus.mentions_received agent >? 0)%Z
  else if String.eqb metric "latency" then Py.gt (AgentStatus.avg_latency agent) 0%Q
  else if String.eqb metric "fidelity" then (AgentStatus.total_claims agent >? 0)%Z
  else if String.eqb metric "activity" then
    match AgentStatus.last_seen agent with Some _ => true | None => false end
  else false.

Definition crosses (critical : bool) (th : Thresholds.t) (agent : AgentStatus.t)
    (now : DateTime.datetime) (metric : string) : bool :=
  if String.eqb metric "ack_rate" then
    Py.lt (AgentStatus.ack_rate agent)
          (if critical then Thresholds.ack_rate_critical th
           else Thresholds.ack_rate_warning th)
  else if String.eqb metric "latency" then
    Py.ge (AgentStatus.avg_latency agent)
          (if critical then Thresholds.latency_critical th
           else Thresholds.latency_warning th)
  else if String.eqb metric "fidelity" then
    Py.lt (AgentStatus.context_fidelity agent)
          (if critical then Thresholds.fidelity_critical th
           else Thresholds.fidelity_warning th)
  else if String.eqb metric "activity" then
    match AgentStatus.last_seen agent with
    | Some seen =>
        Py.ge (DateTime.seconds_between now seen)
              (if critical then Thresholds.inactive_critical th
               else Thresholds.inactive_warning th)
    | None => false
    end
  else false.

(** The list one threshold rule contributes: the critical alert, else the
    warning alert, else nothing; nothing at all without a signal. *)
Definition rule (present critical warning : bool) (c w : Alert.t) : list Alert.t :=
  if present then if critical then [c] else if warning then [w] else [] else [].

(** The two alerts of a metric's rule carry the metric's tag and their
    severities. *)
Definition tagged (metric : string) (c w : Alert.t) : Prop :=
  Alert.metric c = metric /\ Alert.severity c = "CRITICAL" /\
  Alert.metric w = metric /\ Alert.severity w = "WARNING".

(** What one call may emit for a metric: a single CRITICAL alert when the
    critical threshold is crossed, else a single WARNING alert when the
    warning threshold is crossed, else nothing. *)
Definition emitted (metric : string) (present critical warning : bool)
    (l : list Alert.t) : Prop :=
  if present && critical then
    exists a, l = [a] /\ Alert.metric a = metric /\ Alert.severity a = "CRITICAL"
  else if present && warning then
    exists a, l = [a] /\ Alert.metric a = metric /\ Alert.severity a = "WARNING"
  else l = [].

(** The value [check_agent] measures for a metric, when the metric has one. *)
Definition metric_value (agent : AgentStatus.t) (now : DateTime.datetime)
    (metric : string) : option Q :=
  if String.eqb metric "ack_rate" then Some (AgentStatus.ack_rate agent)
  else if String.eqb metric "latency" then Some (AgentStatus.avg_latency agent)
  else if String.eqb metric "fidelity" then Some (AgentStatus.context_fidelity agent)
  else if String.eqb metric "activity" then
    (fun seen => DateTime.seconds_between now seen) <$> AgentStatus.last_seen agent
  else None.

(** The configured cutoff of a metric at a severity. *)
Definition configured_threshold (th : Thresholds.t) (metric severity : string)
  : option Q :=
  let pick (critical warning : Q) :=
    if String.eqb severity "CRITICAL" then Some critical
    else if String.eqb severity "WARNING" then Some warning
    else None in
  if String.eqb metric "ack_rate" then
    pick (Thresholds.ack_rate_critical th) (Thresholds.ack_rate_warning th)
  else if String.eqb metric "latency" then
    pick (Thresholds.latency_critical th) (Thresholds.latency_warning th)
  else if String.eqb metric "fidelity" then
    pick (Thresholds.fidelity_critical th) (Thresholds.fidelity_warning th)
  else if String.eqb metric "activity" then
    pick (Thresholds.inactive_critical th) (Thresholds.inactive_warning th)
  else if String.eqb metric "coherence" then
    pick (Thresholds.coherence_critical th) (Thresholds.coherence_warning th)
  else None.

(** Metrics that alert when the value falls below the cutoff; the others
    alert when the value reaches it. *)
Definition lower_is_worse (metric : string) : bool :=
  String.eqb metric "ack_rate" || String.eqb metric "fidelity"
  || String.eqb metric "coherence".

(** The value of an alert is on the alerting side of its threshold. *)
Definition crossing (a : Alert.t) : Prop :=
  if lower_is_worse (Alert.metric a)
  then (Alert.value a < Alert.threshold a)%Q
  else (Alert.threshold a <= Alert.value a)%Q.

(** A counter of the agent a name refers to, 0 when the name is not
    registered. *)
Definition counter_of (field : AgentStatus.t -> Z) (m : TeamCoherenceMonitor.t)
    (name : string) : Z :=
  match TeamCoherenceMonitor.get_agent m name with
  | Some agent => field agent
  | None => 0%Z
  end.

(** A run of [record_mention] calls for one agent, each with its
    acknowledged flag. *)
Definition record_mentions (m : TeamCoherenceMonitor.t) (name : string)
    (flags : list bool) : TeamCoherenceMonitor.t :=
  fold_left (fun st ack => TeamCoherenceMonitor.record_mention st name ack) flags m.

(** How many flags of a list are set. *)
Definition count_true (flags : list bool) : Z :=
  Z.of_nat (length (List.filter (fun b => b) flags)).

(** Every key of the agent table is a canonical name and holds the record
    of that name. *)
Definition table_canonical (m : TeamCoherenceMonitor.t) : Prop :=
  forall key agent,
    TeamCoherenceMonitor.agents m !! key = Some agent ->
    Py.upper key = key /\ AgentStatus.name agent = key.

(** The value a threshold field takes from a dictionary: the float stored
    under the field's key, the default when the key is absent. *)
Definition threshold_entry (data : gmap string Py.value) (key : string)
    (dflt : Q) : Q :=
  match data !! key with
  | Some (Py.VFloat x) => x
  | _ => dflt
  end.

(** An import event names an agent when its "agent" entry is truthy. *)
Definition event_named (event : gmap string Py.value) : bool :=
  Py.truthy (Py.get event "agent" Py.VNone).

(** The event names the agent [name] refers to. *)
Definition names_agent (name : string) (event : gmap string Py.value) : bool :=
  match Py.get event "agent" Py.VNone with
  | Py.VStr s => negb (String.eqb s "") && String.eqb (Py.upper s) (Py.upper name)
  | _ => false
  end.

(** The sum of a weight over the events that name an agent. *)
Definition named_sum (name : string) (weight : gmap string Py.value -> Z)
    (events : list (gmap string Py.value)) : Z :=
  fold_right Z.add 0%Z
    (List.map (fun e => if names_agent name e then weight e else 0%Z) events).

(** An event whose agent entry, when it names an agent, is a string. *)
Definition event_typed (event : gmap string Py.value) : Prop :=
  event_named event = true -> exists s, Py.get event "agent" Py.VNone = Py.VStr s.





(** How an import applies one event: [effect] on the named agent, nothing
    for an event without agent. *)
Definition apply_event
    (effect : TeamCoherenceMonitor.t -> string -> gmap string Py.value
              -> TeamCoherenceMonitor.t)
    (st : TeamCoherenceMonitor.t) (event : gmap string Py.value)
  : TeamCoherenceMonitor.t :=
  match Py.get event "agent" Py.VNone with
  | Py.VStr s => if event_named event then effect st s event else st
  | _ => st
  end.

(** Whether an imported mention event is flagged as acknowledged. *)
Definition event_acknowledged (event : gmap string Py.value) : bool :=
  Py.truthy (Py.get event "acknowledged" (Py.VBool false)).

(** The agent data an import reads: the list under [key], none when the
    key is absent. *)
Definition imported (data : gmap string (list (gmap string Py.value)))
    (key : string) : list (gmap string Py.value) :=
  default [] (data !! key).

(** How many events of an import name an agent. *)
Definition named_count (events : list (gmap string Py.value)) : Z :=
  Z.of_nat (length (List.filter event_named events)).









(** ** Facts about the Python primitives *)

Section PyFacts.

Lemma lt_spec (a b : Q) : Py.lt a b = true <-> (a < b)%Q.
Proof.
  unfold Py.lt. rewrite negb_true_iff.
  split.
  - intros H. apply Qnot_le_lt. intros Hle.
    apply Qle_bool_iff in Hle. congruence.
  - intros H. destruct (Qle_bool b a) eqn:E; [|reflexivity].
    apply Qle_bool_iff in E. apply Qle_not_lt in E. contradiction.
Qed.

Lemma le_spec (a b : Q) : Py.le a b = true <-> (a <= b)%Q.
Proof. apply Qle_bool_iff. Qed.

Lemma lt_false (a b : Q) : Py.lt a b = false <-> (b <= a)%Q.
Proof.
  unfold Py.lt. rewrite negb_false_iff. apply Qle_bool_iff.
Qed.

Lemma le_false (a b : Q) : Py.le a b = false <-> (b < a)%Q.
Proof.
  rewrite <- (lt_spec b a). unfold Py.lt, Py.le.
  destruct (Qle_bool a b); simpl; intuition congruence.
Qed.

Lemma slice_last_short {A : Type} (n : nat) (l : list A) :
  length l <= n -> Py.slice_last n l = l.
Proof.
  intros H. unfold Py.slice_last.
  replace (length l - n) with 0 by lia. reflexivity.
Qed.

Lemma slice_last_length {A : Type} (n : nat) (l : list A) :
  length (Py.slice_last n l) = Nat.min n (length l).
Proof. unfold Py.slice_last. rewrite length_skipn. lia. Qed.

Lemma slice_last_suffix {A : Type} (n : nat) (p s : list A) :
  n <= length s -> Py.slice_last n (p ++ s) = Py.slice_last n s.
Proof.
  intros H. unfold Py.slice_last.
  rewrite length_app, skipn_app.
  rewrite (skipn_all2 p) by lia.
  simpl. f_equal. lia.
Qed.

(** Trimming before an append does not change the trimmed result. *)
Lemma slice_last_app {A : Type} (n : nat) (l r : list A) :
  Py.slice_last n (Py.slice_last n l ++ r) = Py.slice_last n (l ++ r).
Proof.
  destruct (le_lt_dec (length l) n) as [Hle|Hgt].
  - rewrite (slice_last_short n l) by exact Hle. reflexivity.
  - rewrite <- (firstn_skipn (length l - n) l) at 2.
    rewrite <- app_assoc.
    rewrite (slice_last_suffix n (firstn (length l - n) l)); [reflexivity|].
    rewrite length_app, length_skipn. lia.
Qed.

Lemma upper_char_idemp (c : ascii) :
  Py.upper_char (Py.upper_char c) = Py.upper_char c.
Proof.
  destruct c as [[] [] [] [] [] [] [] []]; vm_compute; reflexivity.
Qed.

Lemma upper_idemp (s : string) : Py.upper (Py.upper s) = Py.upper s.
Proof.
  induction s as [|c r IH]; simpl; [reflexivity|].
  rewrite upper_char_idemp, IH. reflexivity.
Qed.

End PyFacts.

(** ** Alert life cycle: [process_alerts] and [clear_alerts] *)

Section AlertLifecycle.

Import AlertSystem.

Lemma append_each (new active history : list Alert.t) :
  fold_left (fun st alert => (st.1 ++ [alert], st.2 ++ [alert]))
            new (active, history)
  = (active ++ new, history ++ new).
Proof.
  revert active history.
  induction new as [|a new IH]; intros active history; simpl.
  - rewrite !app_nil_r. reflexivity.
  - rewrite IH, <- !app_assoc. reflexivity.
Qed.

Lemma process_alerts_active (sys : t) (new : list Alert.t) (now : DateTime.datetime) :
  active_alerts (process_alerts sys new now)
  = List.filter
      (fun a => DateTime.after_cutoff (Alert.timestamp a) now
                  (DateTime.timedelta_hours 1))
      (active_alerts sys ++ new).
Proof. unfold process_alerts. rewrite append_each. reflexivity. Qed.

Lemma process_alerts_history (sys : t) (new : list Alert.t) (now : DateTime.datetime) :
  alert_history (process_alerts sys new now)
  = Py.slice_last 1000 (alert_history sys ++ new).
Proof.
  unfold process_alerts. rewrite append_each. simpl.
  destruct (1000 <? length (alert_history sys ++ new))%nat eqn:E; [reflexivity|].
  apply Nat.ltb_ge in E. symmetry. apply slice_last_short. exact E.
Qed.

(** An alert leaves the active list exactly when it agrees with one of
    the supplied filters. *)
Lemma kept_false (agent metric : option string) (a : Alert.t) :
  kept agent metric a = false <->
  (exists g, agent = Some g /\ Alert.agent a = Some g) \/
  (exists k, metric = Some k /\ Alert.metric a = k).
Proof.
  unfold kept. rewrite andb_false_iff, !orb_false_iff, !bool_decide_eq_false.
  split.
  - intros [[Hs Hne]|[Hs Hne]].
    + left. destruct agent as [g|]; [|congruence].
      exists g. split; [reflexivity|].
      destruct (decide (Alert.agent a = Some g)); [assumption|tauto].
    + right. destruct metric as [k|]; [|congruence].
      exists k. split; [reflexivity|].
      destruct (decide (Alert.metric a = k)) as [|Hd]; [assumption|].
      exfalso. apply Hne. congruence.
  - intros [(g & -> & Hg)|(k & -> & Hk)].
    + left. split; [discriminate|]. intros Hn. apply Hn. exact Hg.
    + right. split; [discriminate|]. intros Hn. apply Hn. congruence.
Qed.

Lemma clear_alerts_count (sys : t) (agent metric : option string) :
  (clear_alerts sys agent metric).2
  = Z.of_nat (length (List.filter (fun a => negb (kept agent metric a))
                                  (active_alerts sys))).
Proof.
  unfold clear_alerts. simpl.
  induction (active_alerts sys) as [|a l IH]; [reflexivity|].
  simpl. destruct (kept agent metric a); simpl in *; lia.
Qed.

Lemma filter_all {A : Type} (f : A -> bool) (l : list A) :
  (forall x, In x l -> f x = true) -> List.filter f l = l.
Proof.
  induction l as [|x l IH]; intros H; simpl; [reflexivity|].
  rewrite (H x) by (left; reflexivity).
  f_equal. apply IH. intros y Hy. apply H. right. exact Hy.
Qed.

(** Without any filter nothing is cleared. *)
Lemma clear_alerts_no_filter (sys : t) :
  clear_alerts sys None None = (sys, 0%Z).
Proof.
  unfold clear_alerts. rewrite filter_all by reflexivity.
  destruct sys; simpl. f_equal. lia.
Qed.

(** C6.  [process_alerts] appends the new alerts to the active list and to
    the history; afterwards the active list holds exactly the alerts of
    that extended list whose timestamp is strictly newer than one hour
    before [now], in order, and the history holds the last 1000 entries
    of the extended history in insertion order, whatever their age. *)
Theorem process_alerts_windows (sys : t) (new : list Alert.t) (now : DateTime.datetime) :
  let sys' := process_alerts sys new now in
  active_alerts sys'
    = List.filter
        (fun a => (DateTime.to_micros (Alert.timestamp a)
                   >? DateTime.to_micros now - 3600000000)%Z)
        (active_alerts sys ++ new) /\
  (forall a, In a (active_alerts sys') <->
             In a (active_alerts sys ++ new) /\
             (DateTime.to_micros now - 3600000000
              < DateTime.to_micros (Alert.timestamp a))%Z) /\
  alert_history sys' = Py.slice_last 1000 (alert_history sys ++ new) /\
  length (alert_history sys') <= 1000 /\
  (exists dropped, alert_history sys ++ new = dropped ++ alert_history sys').
Proof.
  intros sys'. subst sys'.
  rewrite process_alerts_active, process_alerts_history.
  split; [reflexivity|].
  split.
  { intros a. rewrite filter_In.
    unfold DateTime.after_cutoff, DateTime.timedelta_hours.
    split; intros [H1 H2]; (split; [exact H1|lia]). }
  split; [reflexivity|].
  split.
  { rewrite slice_last_length. lia. }
  exists (firstn (length (alert_history sys ++ new) - 1000)
                 (alert_history sys ++ new)).
  unfold Py.slice_last. symmetry. apply firstn_skipn.
Qed.

(** C1.  [clear_alerts] with both filters removes an alert that agrees
    with the agent filter only: the alert for FORGE on the latency metric
    is cleared by a call that names FORGE and the ack_rate metric, and the
    call reports one alert removed. *)
Theorem clear_alerts_removes_partial_match :
  let a := sample_alert (Some "FORGE") "latency" in
  let sys := AlertSystem.mk Thresholds.default [a] [a] in
  ~ matches_every_filter (Some "FORGE") (Some "ack_rate") a /\
  clear_alerts sys (Some "FORGE") (Some "ack_rate")
  = (AlertSystem.mk Thresholds.default [] [a], 1%Z).
Proof.
  split.
  - intros [_ H]. specialize (H "ack_rate" eq_refl). discriminate H.
  - reflexivity.
Qed.

End AlertLifecycle.

(** ** The facade's [clear_alerts] and canonical names *)

Section CanonicalNames.

Import TeamCoherenceMonitor.

(** C10.  Stored alerts carry canonical (uppercase) agent names and the
    facade's [clear_alerts] compares the supplied name as it is: called
    with a name that is not in canonical form it removes nothing and
    returns 0, although [get_agent] and [register_agent] resolve that name
    to the same record as its canonical form. *)
Theorem facade_clear_alerts_ignores_case (m : t) (name : string) :
  (forall a n, In a (AlertSystem.active_alerts (alerts m)) ->
               Alert.agent a = Some n -> Py.upper n = n) ->
  Py.upper name <> name ->
  clear_alerts m (Some name) = (m, 0%Z) /\
  get_agent m name = get_agent m (Py.upper name) /\
  register_agent m name = register_agent m (Py.upper name).
Proof.
  intros Hcanon Hname. repeat split.
  - unfold clear_alerts, AlertSystem.clear_alerts.
    rewrite filter_all.
    + destruct m as [th ag sc [ath act hist] sn]; simpl.
      unfold set_alerts; simpl. f_equal. lia.
    + intros a Ha. unfold AlertSystem.kept.
      rewrite andb_true_iff, !orb_true_iff, !bool_decide_eq_true.
      split; [right|left; reflexivity].
      intros Heq. apply Hname. apply (Hcanon a name Ha Heq).
  - unfold get_agent. rewrite upper_idemp. reflexivity.
  - unfold register_agent. rewrite upper_idemp. reflexivity.
Qed.

Lemma facade_clear_alerts_ignores_case_witness :
  let m := set_alerts
             (AlertSystem.mk Thresholds.default
                [sample_alert (Some "FORGE") "latency"] [])
             (register_agent (new Thresholds.default) "FORGE").1 in
  clear_alerts m (Some "forge") = (m, 0%Z) /\
  get_agent m "forge" = get_agent m "FORGE" /\
  register_agent m "forge" = register_agent m "FORGE".
Proof.
  apply (facade_clear_alerts_ignores_case _ "forge").
  - intros a n [<-|[]] Hn. injection Hn as <-. reflexivity.
  - discriminate.
Defined.

End CanonicalNames.

(** ** Recording operations *)

Section Recording.

Import TeamCoherenceMonitor.

(** The record a name refers to after an update is the updated record. *)
Lemma get_agent_update (m : t) (name : string)
    (f : AgentStatus.t -> AgentStatus.t) :
  get_agent (update_agent m name f) name = Some (f (register_agent m name).2).
Proof.
  unfold update_agent, register_agent, get_agent.
  destruct (agents m !! Py.upper name); simpl; apply lookup_insert_eq.
Qed.

(** The record [register_agent] hands back is the registered one, or a
    new one with every field at its default. *)
Lemma register_agent_record (m : t) (name : string) :
  (register_agent m name).2
  = match get_agent m name with
    | Some agent => agent
    | None => AgentStatus.new (Py.upper name)
    end.
Proof.
  unfold register_agent, get_agent.
  destruct (agents m !! Py.upper name); reflexivity.
Qed.

Lemma register_agent_latencies (m : t) (name : string) :
  AgentStatus.response_latencies (register_agent m name).2 = latencies_of m name.
Proof.
  rewrite register_agent_record. unfold latencies_of.
  destruct (get_agent m name); reflexivity.
Qed.

(** [record_activity] marks the agent active, whatever its state was. *)
Lemma record_activity_active (m : t) (name : string) (now : DateTime.datetime) :
  exists agent,
    get_agent (record_activity m name now) name = Some agent /\
    AgentStatus.is_active agent = true /\
    AgentStatus.last_seen agent = Some now.
Proof.
  unfold record_activity. rewrite get_agent_update.
  eexists. split; [reflexivity|]. split; reflexivity.
Qed.

(** [record_response] refreshes [last_seen] and leaves the flag as it
    was. *)
Lemma record_response_flag (m : t) (name : string) (latency : Q)
    (now : DateTime.datetime) :
  exists agent,
    get_agent (record_response m name latency now) name = Some agent /\
    AgentStatus.is_active agent = AgentStatus.is_active (register_agent m name).2 /\
    AgentStatus.last_seen agent = Some now.
Proof.
  unfold record_response. rewrite get_agent_update.
  eexists. split; [reflexivity|].
  simpl. destruct (100 <? _)%nat; split; reflexivity.
Qed.

Lemma record_response_latencies (m : t) (name : string) (latency : Q)
    (now : DateTime.datetime) :
  latencies_of (record_response m name latency now) name
  = Py.slice_last 100 (latencies_of m name ++ [latency]).
Proof.
  unfold latencies_of at 1. unfold record_response.
  rewrite get_agent_update. simpl.
  rewrite register_agent_latencies.
  destruct (100 <? length (latencies_of m name ++ [latency]))%nat eqn:E; simpl.
  - reflexivity.
  - apply Nat.ltb_ge in E. symmetry. apply slice_last_short. exact E.
Qed.

Lemma record_responses_latencies (name : string)
    (calls : list (Q * DateTime.datetime)) :
  forall (m : t) (c : Q * DateTime.datetime),
    latencies_of (record_responses m name (c :: calls)) name
    = Py.slice_last 100 (latencies_of m name ++ c.1 :: List.map fst calls).
Proof.
  induction calls as [|c' rest IH]; intros m c.
  - simpl. apply record_response_latencies.
  - change (record_responses m name (c :: c' :: rest))
      with (record_responses (record_response m name c.1 c.2) name (c' :: rest)).
    rewrite IH, record_response_latencies, slice_last_app, <- app_assoc.
    reflexivity.
Qed.

(** C2.  After [record_response] on a monitor without agents the record
    of the agent has [last_seen] set and [is_active] still false:
    [record_response] is a recency-bearing operation that does not raise
    the flag. *)
Theorem record_response_leaves_inactive :
  get_agent (record_response (new Thresholds.default) "FORGE" 2.5 noon) "FORGE"
  = Some (AgentStatus.mk "FORGE" (Some noon) false [2.5%Q] 0 0 0 0 1 0).
Proof. vm_compute. reflexivity. Qed.

(** C5.  After any non-empty run of [record_response] calls for an agent
    its latency history is the last 100 entries of what was there before
    followed by the recorded latencies, in recording order; it never has
    more than 100 entries. *)
Theorem latency_history_bounded (m : t) (name : string)
    (c : Q * DateTime.datetime) (calls : list (Q * DateTime.datetime)) :
  let m' := record_responses m name (c :: calls) in
  latencies_of m' name
    = Py.slice_last 100 (latencies_of m name ++ List.map fst (c :: calls)) /\
  length (latencies_of m' name) <= 100 /\
  (exists evicted,
      latencies_of m name ++ List.map fst (c :: calls)
      = evicted ++ latencies_of m' name).
Proof.
  intros m'. subst m'. rewrite record_responses_latencies. simpl List.map.
  split; [reflexivity|]. split.
  - rewrite slice_last_length. lia.
  - eexists. unfold Py.slice_last. symmetry. apply firstn_skipn.
Qed.

End Recording.

(** ** The latency curve *)

Section LatencyCurve.

Import CoherenceScorer.
Local Open Scope Q_scope.

(** Turn the comparisons the code makes into order facts. *)
Ltac order_facts :=
  repeat match goal with
  | H : Py.le _ _ = true |- _ => apply le_spec in H
  | H : Py.le _ _ = false |- _ => apply le_false in H
  | H : Py.lt _ _ = true |- _ => apply lt_spec in H
  | H : Py.lt _ _ = false |- _ => apply lt_false in H
  end.

Lemma clamp_range (s : Q) : 0 <= Py.max 0.0 (Py.min 100.0 s) <= 100.
Proof.
  unfold Py.max, Py.min, Py.gt.
  destruct (Py.lt s 100.0) eqn:E1;
    [destruct (Py.lt 0.0 s) eqn:E2 | destruct (Py.lt 0.0 100.0) eqn:E2];
    order_facts; lra.
Qed.

Lemma clamp_mono (s s' : Q) :
  s <= s' -> Py.max 0.0 (Py.min 100.0 s) <= Py.max 0.0 (Py.min 100.0 s').
Proof.
  intros H. unfold Py.max, Py.min, Py.gt.
  destruct (Py.lt s 100.0) eqn:E1; destruct (Py.lt s' 100.0) eqn:E2;
    repeat match goal with
    | |- context [Py.lt ?a ?b] => destruct (Py.lt a b) eqn:?
    end;
    order_facts; lra.
Qed.

(** On the linear arm the divisor is positive. *)
Lemma range_size_pos (self : t) (x : Q) :
  Py.ge x (Thresholds.latency_critical (thresholds self)) = false ->
  Py.le x 5.0 = false ->
  0 < Thresholds.latency_critical (thresholds self) - 5.0.
Proof. unfold Py.ge. intros H1 H2. order_facts. lra. Qed.

Lemma score_latency_range (self : t) (x : Q) :
  0 <= score_latency self x <= 100.
Proof.
  unfold score_latency.
  destruct (Py.le x 0); [lra|].
  destruct (Py.ge x _); [lra|].
  destruct (Py.le x 5.0); [lra|].
  apply clamp_range.
Qed.

Lemma score_latency_mono (self : t) (x y : Q) :
  x <= y -> score_latency self y <= score_latency self x.
Proof.
  intros Hxy.
  pose proof (score_latency_range self x) as Rx.
  pose proof (score_latency_range self y) as Ry.
  revert Rx Ry. unfold score_latency, Py.ge.
  set (c := Thresholds.latency_critical (thresholds self)).
  destruct (Py.le y 0) eqn:Y0; destruct (Py.le x 0) eqn:X0;
    destruct (Py.le c y) eqn:Yc; destruct (Py.le c x) eqn:Xc;
    destruct (Py.le y 5.0) eqn:Y5; destruct (Py.le x 5.0) eqn:X5;
    intros Rx Ry; order_facts; try lra.
  apply clamp_mono.
  assert (Hc : 0 < c - 5.0) by lra.
  assert (Hd : (x - 5.0) / (c - 5.0) <= (y - 5.0) / (c - 5.0)).
  { unfold Qdiv. apply Qmult_le_compat_r; [lra|].
    apply Qlt_le_weak, Qinv_lt_0_compat, Hc. }
  lra.
Qed.

(** C7 (counterexample).  With a critical latency threshold of zero, the
    latency 0 is at the threshold and scores 100, not 0. *)
Lemma score_latency_at_zero_threshold :
  let self := mk (Thresholds.mk 30.0 0.0 80.0 60.0 90.0 70.0 120.0 300.0 75.0 50.0) in
  Thresholds.latency_critical (thresholds self) <= 0 /\
  score_latency self 0 == 100 /\
  ~ score_latency self 0 == 0.
Proof.
  split; [|split].
  - vm_compute. discriminate.
  - reflexivity.
  - vm_compute. discriminate.
Qed.

(** C7 (amended).  [score_latency] is monotonically non-increasing,
    [score_latency 0] is 100, every positive latency at or above the critical
    latency threshold scores 0, and every score lies in [0, 100]. *)
Theorem score_latency_curve (self : t) (x y : Q) :
  (x <= y -> score_latency self y <= score_latency self x) /\
  score_latency self 0 == 100 /\
  (0 < x -> Thresholds.latency_critical (thresholds self) <= x ->
   score_latency self x == 0) /\
  0 <= score_latency self x <= 100.
Proof.
  split; [apply score_latency_mono|].
  split; [reflexivity|].
  split; [|apply score_latency_range].
  intros Hpos Hc. unfold score_latency, Py.ge.
  destruct (Py.le x 0) eqn:X0; order_facts; [lra|].
  apply le_spec in Hc. rewrite Hc. reflexivity.
Qed.

Lemma score_latency_curve_witness :
  let self := mk Thresholds.default in
  score_latency self 70 <= score_latency self 10 /\
  score_latency self 70 == 0.
Proof.
  destruct (score_latency_curve (mk Thresholds.default) 10 70) as (H1 & _ & _ & _).
  destruct (score_latency_curve (mk Thresholds.default) 70 70) as (_ & _ & H3 & _).
  split.
  - apply H1. vm_compute. discriminate.
  - apply H3; vm_compute; [reflexivity|discriminate].
Defined.

End LatencyCurve.

(** ** Scores of agents and of the team *)

Section TeamScore.

Import CoherenceScorer.

Lemma round_half_even_comp (x y : Q) :
  (x == y)%Q -> Py.round_half_even x = Py.round_half_even y.
Proof.
  intros H. unfold Py.round_half_even.
  rewrite (Qfloor_comp x y H).
  assert (Hc : ((x - inject_Z (Qfloor y)) ?= (1 # 2))%Q
               = ((y - inject_Z (Qfloor y)) ?= (1 # 2))%Q).
  { apply Qcompare_comp; [rewrite H|]; reflexivity. }
  rewrite Hc. reflexivity.
Qed.

Lemma round1_comp (x y : Q) : (x == y)%Q -> Py.round1 x = Py.round1 y.
Proof.
  intros H. unfold Py.round1.
  rewrite (round_half_even_comp (x * 10) (y * 10)); [reflexivity|].
  rewrite H. reflexivity.
Qed.

Lemma sum_const (c : Q) (l : list Q) :
  Forall (fun v => v = c) l ->
  (Py.sum l == inject_Z (Z.of_nat (length l)) * c)%Q.
Proof.
  induction 1 as [|v l Hv Hl IH].
  - simpl. ring.
  - subst v. cbn [Py.sum fold_right length]. fold (Py.sum l). rewrite IH.
    rewrite Nat2Z.inj_succ. unfold Z.succ. rewrite inject_Z_plus. ring.
Qed.

(** The mean of a non-empty sample of equal scores is that score. *)
Lemma mean_const (c : Q) (l : list Q) :
  l <> [] -> Forall (fun v => v = c) l ->
  exists m, Py.mean l = Py.Ok m /\ (m == c)%Q.
Proof.
  intros Hne Hall. destruct l as [|v l]; [congruence|].
  eexists. split; [reflexivity|].
  rewrite (sum_const c) by exact Hall.
  field. intros H0.
  assert (Hpos : (0 < inject_Z (Z.of_nat (length (v :: l))))%Q).
  { rewrite <- (Zlt_Qlt 0). simpl length. lia. }
  rewrite H0 in Hpos. apply (Qlt_irrefl 0). exact Hpos.
Qed.

(** The team score is always produced: the mean is taken of a non-empty
    sample only. *)
Lemma calculate_team_score_total (self : t) (agents : gmap string AgentStatus.t)
    (now : DateTime.datetime) :
  exists score,
    calculate_team_score self agents now
    = Py.Ok (score, if bool_decide (agents = ∅) then ∅
                    else (fun agent => calculate_agent_score self agent now) <$> agents).
Proof.
  unfold calculate_team_score.
  destruct (bool_decide (agents = ∅)) eqn:E; [eexists; reflexivity|].
  apply bool_decide_eq_false in E.
  rewrite bool_decide_eq_false_2 by (intros H; apply fmap_empty_inv in H; tauto).
  unfold values.
  destruct (map_to_list _) as [|kv l] eqn:El.
  - apply map_to_list_empty_iff, fmap_empty_inv in El. tauto.
  - eexists. reflexivity.
Qed.

(** When every agent has the score [c], the team has the score [c] rounded. *)
Lemma calculate_team_score_const (self : t) (agents : gmap string AgentStatus.t)
    (now : DateTime.datetime) (c : Q) :
  agents <> ∅ ->
  (forall name agent, agents !! name = Some agent ->
                      calculate_agent_score self agent now = c) ->
  calculate_team_score self agents now
  = Py.Ok (Py.round1 c, (fun agent => calculate_agent_score self agent now) <$> agents).
Proof.
  intros Hne Hall. unfold calculate_team_score.
  rewrite bool_decide_eq_false_2 by exact Hne.
  rewrite bool_decide_eq_false_2 by (intros H; apply fmap_empty_inv in H; tauto).
  destruct (mean_const c
              (values ((fun agent => calculate_agent_score self agent now) <$> agents)))
    as (m & Hm & Hmc).
  - unfold values. intros H. apply fmap_nil_inv in H.
    apply map_to_list_empty_iff, fmap_empty_inv in H. tauto.
  - unfold values. apply Forall_fmap, Forall_forall.
    intros [k v] Hin. apply elem_of_map_to_list in Hin.
    rewrite lookup_fmap in Hin.
    destruct (agents !! k) as [agent|] eqn:Ek; simpl in Hin; [|discriminate].
    injection Hin as <-. simpl. apply (Hall k agent Ek).
  - rewrite Hm. simpl. rewrite (round1_comp m c Hmc). reflexivity.
Qed.

(** A record with every field at its default scores 85 under the default
    thresholds, whatever its name and the time. *)
Lemma fresh_agent_score (name : string) (now : DateTime.datetime) :
  let self := mk Thresholds.default in
  let agent := AgentStatus.new name in
  (AgentStatus.ack_rate agent == 100)%Q /\
  (score_latency self (AgentStatus.avg_latency agent) == 100)%Q /\
  (AgentStatus.context_fidelity agent == 100)%Q /\
  (seconds_since self agent now
   == Thresholds.inactive_critical (thresholds self))%Q /\
  (score_activity self (seconds_since self agent now) == 0)%Q /\
  calculate_agent_score self agent now = 85%Q.
Proof. repeat split. Qed.

End TeamScore.

Section FreshTeam.

Import TeamCoherenceMonitor.

(** The table after registering two agents on a monitor without agents. *)
Lemma two_registered (th : Thresholds.t) (a b : string) :
  Py.upper a <> Py.upper b ->
  agents (register_agent (register_agent (new th) a).1 b).1
  = <[Py.upper b := AgentStatus.new (Py.upper b)]>
      (<[Py.upper a := AgentStatus.new (Py.upper a)]> ∅).
Proof.
  intros Hab. unfold register_agent at 2. simpl.
  rewrite lookup_empty. simpl.
  unfold register_agent. simpl.
  rewrite lookup_insert_ne by exact Hab.
  rewrite lookup_empty. reflexivity.
Qed.

(** C3.  A monitor with default thresholds that holds exactly two freshly
    registered agents gives each of them ack-rate 100, latency score 100,
    fidelity 100 and activity score 0 (a never-seen agent counts as inactive
    for the critical-inactivity time), hence the agent score 85.0, and gives
    the team the score 85.0. *)
Theorem fresh_team_score (a b : string) (now : DateTime.datetime) :
  Py.upper a <> Py.upper b ->
  let m := (register_agent (register_agent (new Thresholds.default) a).1 b).1 in
  size (agents m) = 2 /\
  (forall name agent, agents m !! name = Some agent ->
     (AgentStatus.ack_rate agent == 100)%Q /\
     (CoherenceScorer.score_latency (scorer m) (AgentStatus.avg_latency agent) == 100)%Q /\
     (AgentStatus.context_fidelity agent == 100)%Q /\
     (CoherenceScorer.seconds_since (scorer m) agent now
      == Thresholds.inactive_critical (thresholds m))%Q /\
     (CoherenceScorer.score_activity (scorer m)
        (CoherenceScorer.seconds_since (scorer m) agent now) == 0)%Q /\
     CoherenceScorer.calculate_agent_score (scorer m) agent now = 85%Q) /\
  CoherenceScorer.calculate_team_score (scorer m) (agents m) now
  = Py.Ok (85%Q, <[Py.upper b := 85%Q]> (<[Py.upper a := 85%Q]> ∅)) /\
  get_coherence_score m now = Py.Ok 85%Q.
Proof.
  intros Hab m.
  assert (Hsc : scorer m = CoherenceScorer.mk Thresholds.default).
  { subst m. unfold register_agent. simpl.
    repeat (destruct (_ !! _); simpl); reflexivity. }
  assert (Hth : thresholds m = Thresholds.default).
  { subst m. unfold register_agent. simpl.
    repeat (destruct (_ !! _); simpl); reflexivity. }
  assert (Hag : agents m
                = <[Py.upper b := AgentStatus.new (Py.upper b)]>
                    (<[Py.upper a := AgentStatus.new (Py.upper a)]> ∅)).
  { apply two_registered. exact Hab. }
  assert (Hfresh : forall name agent, agents m !! name = Some agent ->
                                      exists n, agent = AgentStatus.new n).
  { intros name agent. rewrite Hag.
    rewrite lookup_insert_Some, lookup_insert_Some, lookup_empty.
    intros [[_ <-]|[_ [[_ <-]|[_ H]]]]; [eexists; reflexivity ..|discriminate]. }
  assert (Hteam : CoherenceScorer.calculate_team_score (scorer m) (agents m) now
                  = Py.Ok (85%Q, <[Py.upper b := 85%Q]> (<[Py.upper a := 85%Q]> ∅))).
  { rewrite (calculate_team_score_const (scorer m) (agents m) now 85%Q).
    - rewrite Hag, Hsc, !fmap_insert, fmap_empty. reflexivity.
    - rewrite Hag. apply insert_non_empty.
    - intros name agent Hl. destruct (Hfresh name agent Hl) as [n ->].
      rewrite Hsc. reflexivity. }
  split; [|split; [|split]].
  - rewrite Hag, map_size_insert_None, map_size_insert_None, map_size_empty.
    + reflexivity.
    + apply lookup_empty.
    + rewrite lookup_insert_ne by exact Hab. apply lookup_empty.
  - intros name agent Hl. destruct (Hfresh name agent Hl) as [n ->].
    rewrite Hsc, Hth. apply fresh_agent_score.
  - exact Hteam.
  - unfold get_coherence_score. rewrite Hteam. reflexivity.
Qed.

Lemma fresh_team_score_witness :
  let m := (register_agent (register_agent (new Thresholds.default) "forge").1 "Atlas").1 in
  CoherenceScorer.calculate_team_score (scorer m) (agents m) noon
  = Py.Ok (85%Q, <["ATLAS" := 85%Q]> (<["FORGE" := 85%Q]> ∅)) /\
  get_coherence_score m noon = Py.Ok 85%Q.
Proof.
  destruct (fresh_team_score "forge" "Atlas" noon) as (_ & _ & H3 & H4).
  - discriminate.
  - split; [exact H3|exact H4].
Defined.

End FreshTeam.

(** ** Severity selection in [check_agent] *)

Section SeveritySelection.

Import AlertSystem.

(** An append guarded by a critical-then-warning test extends the list by
    the rule's contribution. *)
Lemma append_rule (p c w : bool) (x y : Alert.t) (l : list Alert.t) :
  (if p then if c then l ++ [x] else if w then l ++ [y] else l else l)
  = l ++ rule p c w x y.
Proof. destruct p, c, w; simpl; rewrite ?app_nil_r; reflexivity. Qed.

Lemma append_rule_checked (c w : bool) (x y : Alert.t) (l : list Alert.t) :
  (if c then l ++ [x] else if w then l ++ [y] else l) = l ++ rule true c w x y.
Proof. destruct c, w; simpl; rewrite ?app_nil_r; reflexivity. Qed.

(** [check_agent] is the concatenation of four rules, one for each metric,
    in the order ack_rate, latency, fidelity, activity. *)
Lemma check_agent_rules (sys : t) (agent : AgentStatus.t) (now : DateTime.datetime) :
  let r := fun metric c w =>
    rule (signal_present agent metric)
         (crosses true (thresholds sys) agent now metric)
         (crosses false (thresholds sys) agent now metric) c w in
  exists c1 w1 c2 w2 c3 w3 c4 w4,
    check_agent sys agent now
    = r "ack_rate" c1 w1 ++ r "latency" c2 w2 ++ r "fidelity" c3 w3
      ++ r "activity" c4 w4 /\
    tagged "ack_rate" c1 w1 /\ tagged "latency" c2 w2 /\
    tagged "fidelity" c3 w3 /\ tagged "activity" c4 w4.
Proof.
  intros r. subst r. unfold check_agent, signal_present, crosses.
  cbn [String.eqb Ascii.eqb Bool.eqb]. cbv zeta.
  destruct (AgentStatus.last_seen agent) as [seen|].
  - do 8 eexists. split.
    + etransitivity; [apply append_rule_checked|].
      rewrite !append_rule, <- !app_assoc. simpl app. reflexivity.
    + repeat split.
  - do 6 eexists.
    exists (Alert.mk now "CRITICAL" None "activity" "" 0 0),
           (Alert.mk now "WARNING" None "activity" "" 0 0).
    split.
    + rewrite !append_rule.
      rewrite <- (app_nil_r (_ ++ rule _ _ _ _ _)).
      rewrite <- !app_assoc. simpl app. reflexivity.
    + repeat split.
Qed.

Lemma alerts_on_app (k : string) (l1 l2 : list Alert.t) :
  alerts_on k (l1 ++ l2) = alerts_on k l1 ++ alerts_on k l2.
Proof. unfold alerts_on. apply List.filter_app. Qed.

Lemma alerts_on_rule (k k' : string) (p c w : bool) (x y : Alert.t) :
  tagged k' x y ->
  alerts_on k (rule p c w x y) = if String.eqb k' k then rule p c w x y else [].
Proof.
  intros (Hx & _ & Hy & _). unfold alerts_on, rule.
  destruct p, c, w; simpl; rewrite ?Hx, ?Hy;
    destruct (String.eqb k' k); reflexivity.
Qed.

Lemma rule_length (p c w : bool) (x y : Alert.t) : length (rule p c w x y) <= 1.
Proof. destruct p, c, w; simpl; lia. Qed.

Lemma rule_emitted (k : string) (p c w : bool) (x y : Alert.t) :
  tagged k x y -> emitted k p c w (rule p c w x y).
Proof.
  intros (Hx & Sx & Hy & Sy). unfold emitted, rule.
  destruct p, c, w; simpl; eauto.
Qed.

(** C4.  In the list one [check_agent] call returns, every metric has at
    most one alert, so no metric has both a WARNING and a CRITICAL alert;
    for each of the four metrics the alert is the CRITICAL one whenever the
    critical threshold is crossed (the critical test comes first), the
    WARNING one when only the warning threshold is crossed, and there is
    none otherwise or when the metric has no signal. *)
Theorem check_agent_one_severity_per_metric (sys : t) (agent : AgentStatus.t)
    (now : DateTime.datetime) :
  let alerts := check_agent sys agent now in
  (forall metric, length (alerts_on metric alerts) <= 1) /\
  (forall a b, In a alerts -> In b alerts ->
               Alert.metric a = Alert.metric b ->
               ~ (Alert.severity a = "WARNING" /\ Alert.severity b = "CRITICAL")) /\
  (forall metric, In metric ["ack_rate"; "latency"; "fidelity"; "activity"] ->
     emitted metric (signal_present agent metric)
             (crosses true (thresholds sys) agent now metric)
             (crosses false (thresholds sys) agent now metric)
             (alerts_on metric alerts)).
Proof.
  intros alerts. subst alerts.
  destruct (check_agent_rules sys agent now)
    as (c1 & w1 & c2 & w2 & c3 & w3 & c4 & w4 & Heq & T1 & T2 & T3 & T4).
  cbv zeta in Heq. rewrite Heq. clear Heq.
  set (r1 := rule _ _ _ c1 w1). set (r2 := rule _ _ _ c2 w2).
  set (r3 := rule _ _ _ c3 w3). set (r4 := rule _ _ _ c4 w4).
  assert (Hon : forall m,
    alerts_on m (r1 ++ r2 ++ r3 ++ r4)
    = (if String.eqb "ack_rate" m then r1 else []) ++
      (if String.eqb "latency" m then r2 else []) ++
      (if String.eqb "fidelity" m then r3 else []) ++
      (if String.eqb "activity" m then r4 else [])).
  { intros m. rewrite !alerts_on_app. subst r1 r2 r3 r4.
    rewrite (alerts_on_rule m "ack_rate") by exact T1.
    rewrite (alerts_on_rule m "latency") by exact T2.
    rewrite (alerts_on_rule m "fidelity") by exact T3.
    rewrite (alerts_on_rule m "activity") by exact T4.
    reflexivity. }
  assert (Hlen : forall m, length (alerts_on m (r1 ++ r2 ++ r3 ++ r4)) <= 1).
  { intros m. rewrite Hon.
    destruct (String.eqb_spec "ack_rate" m) as [E1|_];
      destruct (String.eqb_spec "latency" m) as [E2|_];
      destruct (String.eqb_spec "fidelity" m) as [E3|_];
      destruct (String.eqb_spec "activity" m) as [E4|_];
      try congruence;
      rewrite ?app_nil_r; simpl app; try apply rule_length; simpl; lia. }
  split; [exact Hlen|]. split.
  - intros a b Ha Hb Hm [Sa Sb].
    specialize (Hlen (Alert.metric a)).
    assert (Ia : In a (alerts_on (Alert.metric a) (r1 ++ r2 ++ r3 ++ r4))).
    { apply filter_In. split; [exact Ha|]. apply String.eqb_refl. }
    assert (Ib : In b (alerts_on (Alert.metric a) (r1 ++ r2 ++ r3 ++ r4))).
    { apply filter_In. split; [exact Hb|]. rewrite Hm. apply String.eqb_refl. }
    destruct (alerts_on _ _) as [|z [|z' l]]; simpl in *; try lia; try tauto.
    destruct Ia as [<-|[]]. destruct Ib as [<-|[]]. congruence.
  - intros m Hm. rewrite Hon. simpl in Hm.
    destruct Hm as [<-|[<-|[<-|[<-|[]]]]];
      cbn [String.eqb Ascii.eqb Bool.eqb]; rewrite ?app_nil_r; simpl app;
      apply rule_emitted; assumption.
Qed.

Lemma check_agent_one_severity_per_metric_witness :
  let agent := AgentStatus.mk "FORGE" None false [] 10 5 0 0 0 0 in
  exists a,
    alerts_on "ack_rate" (check_agent (AlertSystem.new Thresholds.default) agent noon)
    = [a] /\
    Alert.metric a = "ack_rate" /\ Alert.severity a = "CRITICAL".
Proof.
  destruct (check_agent_one_severity_per_metric
              (AlertSystem.new Thresholds.default)
              (AgentStatus.mk "FORGE" None false [] 10 5 0 0 0 0) noon)
    as (_ & _ & H).
  apply (H "ack_rate"). left. reflexivity.
Defined.

End SeveritySelection.

(** ** Trend over the snapshot history *)

Section Trend.

Import TeamCoherenceMonitor.

Lemma get_coherence_score_total (m : t) (now : DateTime.datetime) :
  exists score, get_coherence_score m now = Py.Ok score.
Proof.
  unfold get_coherence_score.
  destruct (calculate_team_score_total (scorer m) (agents m) now) as [s ->].
  eexists. reflexivity.
Qed.






















(** C8 (counterexample).  A window of 2000000000 minutes puts the cutoff
    before year 1 and the call raises [OverflowError] instead of returning;
    and with no snapshot in the window, an agent last seen 30.899 seconds
    before the reading of the minimum and 30.901 seconds before the reading
    of the maximum gives a minimum of 100.0 above a maximum of 99.9: the
    three scores of the short branch are three readings, not one. *)
Lemma get_trend_not_as_claimed :
  let m0 := new Thresholds.default in
  let m1 := record_activity (new Thresholds.default) "FORGE" noon in
  let t1 := DateTime.mk 2026 1 25 12 0 30 899000 in
  let t2 := DateTime.mk 2026 1 25 12 0 30 901000 in
  get_trend m0 2000000000 noon noon noon noon = Py.Raise Py.OverflowError /\
  get_trend m1 30 t1 t1 t2 t2
  = Py.Ok (mk_trend "STABLE" (Py.Finite 0.0) 0 100 (999 # 10) (999 # 10)) /\
  ~ (100 == 999 # 10)%Q.
Proof.
  split; [|split].
  - vm_compute. reflexivity.
  - vm_compute. reflexivity.
  - vm_compute. discriminate.
Qed.






End Trend.

(** ** Serialization round trips *)

Section Serialization.

Import DateTime.

Lemma digit_val_char (d : Z) :
  (0 <= d < 10)%Z -> digit_val (digit_char d) = Some d.
Proof.
  intros H.
  assert (E : (d = 0 \/ d = 1 \/ d = 2 \/ d = 3 \/ d = 4 \/ d = 5 \/ d = 6 \/
               d = 7 \/ d = 8 \/ d = 9)%Z) by lia.
  repeat (destruct E as [-> | E]; [reflexivity | ]). subst d. reflexivity.
Qed.

Lemma number_snoc (cs : list ascii) (c : ascii) :
  number (cs ++ [c])
  = match number cs, digit_val c with
    | Some a, Some d => Some (10 * a + d)%Z
    | _, _ => None
    end.
Proof. unfold number. rewrite fold_left_app. reflexivity. Qed.

Lemma digits_length (w : nat) : forall n, length (digits w n) = w.
Proof.
  induction w as [|w IH]; intros n; simpl; [reflexivity|].
  rewrite length_app, IH. simpl. lia.
Qed.

(** Reading back a zero-padded number of [w] digits. *)
Lemma number_digits (w : nat) :
  forall n, (0 <= n < 10 ^ Z.of_nat w)%Z -> number (digits w n) = Some n.
Proof.
  induction w as [|w IH]; intros n Hn.
  - simpl in *. assert (n = 0)%Z by lia. subst n. reflexivity.
  - cbn [digits]. rewrite number_snoc.
    rewrite Nat2Z.inj_succ, Z.pow_succ_r in Hn by lia.
    rewrite IH.
    + rewrite digit_val_char by (apply Z.mod_pos_bound; lia).
      f_equal. pose proof (Z.div_mod n 10). lia.
    + split; [apply Z.div_pos; lia|].
      apply Z.div_lt_upper_bound; lia.
Qed.

Lemma valid_ranges (d : datetime) :
  valid d = true ->
  (0 <= year d < 10 ^ Z.of_nat 4 /\ 0 <= month d < 10 ^ Z.of_nat 2 /\
   0 <= day d < 10 ^ Z.of_nat 2 /\ 0 <= hour d < 10 ^ Z.of_nat 2 /\
   0 <= minute d < 10 ^ Z.of_nat 2 /\ 0 <= second d < 10 ^ Z.of_nat 2 /\
   0 <= microsecond d < 10 ^ Z.of_nat 6)%Z.
Proof.
  unfold valid. rewrite !andb_true_iff, !Z.leb_le, !Z.ltb_lt.
  intros H.
  assert (Hdim : (days_in_month (year d) (month d) <= 31)%Z).
  { unfold days_in_month.
    repeat match goal with |- context [if ?b then _ else _] => destruct b end; lia. }
  change (10 ^ Z.of_nat 4)%Z with 10000%Z.
  change (10 ^ Z.of_nat 2)%Z with 100%Z.
  change (10 ^ Z.of_nat 6)%Z with 1000000%Z.
  lia.
Qed.

(** [fromisoformat] reads back what [isoformat] writes. *)
Lemma fromisoformat_isoformat (d : datetime) :
  valid d = true -> fromisoformat (isoformat d) = Py.Ok d.
Proof.
  intros Hv.
  destruct (valid_ranges d Hv) as (Hy & Hm & Hd & Hh & Hn & Hs & Hu).
  unfold fromisoformat, isoformat.
  rewrite list_ascii_of_string_of_list_ascii.
  pose proof (digits_length 4 (year d)) as Ly.
  pose proof (digits_length 2 (month d)) as Lm.
  pose proof (digits_length 2 (day d)) as Ld.
  pose proof (digits_length 2 (hour d)) as Lh.
  pose proof (digits_length 2 (minute d)) as Ln.
  pose proof (digits_length 2 (second d)) as Ls.
  pose proof (digits_length 6 (microsecond d)) as Lu.
  pose proof (number_digits 4 (year d) Hy) as Ny.
  pose proof (number_digits 2 (month d) Hm) as Nm.
  pose proof (number_digits 2 (day d) Hd) as Nd.
  pose proof (number_digits 2 (hour d) Hh) as Nh.
  pose proof (number_digits 2 (minute d) Hn) as Nn.
  pose proof (number_digits 2 (second d) Hs) as Ns.
  pose proof (number_digits 6 (microsecond d) Hu) as Nu.
  destruct (digits 4 (year d)) as [|y1 [|y2 [|y3 [|y4 [|]]]]]; try discriminate Ly.
  destruct (digits 2 (month d)) as [|m1 [|m2 [|]]]; try discriminate Lm.
  destruct (digits 2 (day d)) as [|d1 [|d2 [|]]]; try discriminate Ld.
  destruct (digits 2 (hour d)) as [|h1 [|h2 [|]]]; try discriminate Lh.
  destruct (digits 2 (minute d)) as [|n1 [|n2 [|]]]; try discriminate Ln.
  destruct (digits 2 (second d)) as [|s1 [|s2 [|]]]; try discriminate Ls.
  destruct (digits 6 (microsecond d))
    as [|u1 [|u2 [|u3 [|u4 [|u5 [|u6 [|]]]]]]]; try discriminate Lu.
  cbn [app].
  assert (Hfrac :
    match (if (microsecond d =? 0)%Z then []
           else "."%char :: [u1; u2; u3; u4; u5; u6]) with
    | [] => Some 0%Z
    | [p; v1; v2; v3; v4; v5; v6] =>
        if Ascii.eqb p "."%char then number [v1; v2; v3; v4; v5; v6] else None
    | _ => None
    end = Some (microsecond d)).
  { destruct (microsecond d =? 0)%Z eqn:E.
    - apply Z.eqb_eq in E. rewrite E. reflexivity.
    - cbn [Ascii.eqb Bool.eqb]. exact Nu. }
  rewrite Hfrac, Ny, Nm, Nd, Nh, Nn, Ns.
  cbn [Ascii.eqb Bool.eqb andb].
  destruct d as [y m dd h n s u]. cbn [year month day hour minute second microsecond] in *.
  rewrite Hv. reflexivity.
Qed.

End Serialization.

Section RoundTrips.

Lemma isoformat_truthy (d : DateTime.datetime) :
  Py.truthy (Py.VStr (DateTime.isoformat d)) = true.
Proof.
  unfold Py.truthy, DateTime.isoformat.
  cbn [DateTime.digits app string_of_list_ascii]. reflexivity.
Qed.

(** What the round trip of an agent record yields: the record with its
    latency history cut to the last 100 entries. *)
Lemma agent_round_trip_general (a : AgentStatus.t) :
  (forall d, AgentStatus.last_seen a = Some d -> DateTime.valid d = true) ->
  AgentStatus.from_dict (AgentStatus.to_dict a)
  = Py.Ok (AgentStatus.set_response_latencies
             (Py.slice_last 100 (AgentStatus.response_latencies a)) a).
Proof.
  intros Hv. destruct a as [n ls act lat mr ma cc tc ms ed].
  unfold AgentStatus.from_dict, AgentStatus.to_dict, Py.getitem, Py.get.
  cbn [AgentStatus.name AgentStatus.last_seen AgentStatus.is_active
       AgentStatus.response_latencies AgentStatus.mentions_received
       AgentStatus.mentions_acknowledged AgentStatus.correct_claims
       AgentStatus.total_claims AgentStatus.messages_sent
       AgentStatus.errors_detected] in *.
  repeat (rewrite lookup_insert_eq || rewrite lookup_insert_ne by discriminate).
  destruct ls as [d|].
  - rewrite isoformat_truthy.
    cbn [mbind result_bind Py.bind Py.as_str].
    rewrite fromisoformat_isoformat by (apply Hv; reflexivity).
    reflexivity.
  - reflexivity.
Qed.

Lemma alert_round_trip (al : Alert.t) :
  DateTime.valid (Alert.timestamp al) = true ->
  Alert.from_dict (Alert.to_dict al) = Py.Ok al.
Proof.
  intros Hv. destruct al as [ts sev ag met msg v th].
  unfold Alert.from_dict, Alert.to_dict, Py.getitem, Py.get.
  cbn [Alert.timestamp Alert.severity Alert.agent Alert.metric Alert.message
       Alert.value Alert.threshold] in *.
  repeat (rewrite lookup_insert_eq || rewrite lookup_insert_ne by discriminate).
  cbn [mbind result_bind Py.bind Py.as_str].
  rewrite fromisoformat_isoformat by exact Hv.
  destruct ag; reflexivity.
Qed.

Lemma thresholds_round_trip (th : Thresholds.t) :
  Thresholds.from_dict (Thresholds.to_dict th) = Py.Ok th.
Proof. destruct th. vm_compute. reflexivity. Qed.

(** C9 (counterexample).  An agent record with 101 latencies does not
    survive the round trip: the oldest latency is gone. *)
Lemma agent_round_trip_drops_latency :
  let a := AgentStatus.mk "FORGE" None false (0.5%Q :: repeat 1%Q 100) 0 0 0 0 0 0 in
  AgentStatus.from_dict (AgentStatus.to_dict a)
  = Py.Ok (AgentStatus.mk "FORGE" None false (repeat 1%Q 100) 0 0 0 0 0 0) /\
  AgentStatus.from_dict (AgentStatus.to_dict a) <> Py.Ok a.
Proof.
  assert (E : AgentStatus.from_dict
                (AgentStatus.to_dict
                   (AgentStatus.mk "FORGE" None false (0.5%Q :: repeat 1%Q 100)
                      0 0 0 0 0 0))
              = Py.Ok (AgentStatus.mk "FORGE" None false (repeat 1%Q 100) 0 0 0 0 0 0)).
  { vm_compute. reflexivity. }
  split; [exact E|].
  cbv zeta. rewrite E. intros H.
  apply (f_equal (fun r => match r with
                           | Py.Ok x => length (AgentStatus.response_latencies x)
                           | Py.Raise _ => 0
                           end)) in H.
  vm_compute in H. discriminate H.
Qed.

(** C9 (amended).  Serializing and deserializing gives back every field of
    an alert and of a threshold configuration, and every field of an agent
    record whose latency history has at most 100 entries (the bound the
    recording operations keep). *)
Theorem round_trips (a : AgentStatus.t) (al : Alert.t) (th : Thresholds.t) :
  (forall d, AgentStatus.last_seen a = Some d -> DateTime.valid d = true) ->
  DateTime.valid (Alert.timestamp al) = true ->
  length (AgentStatus.response_latencies a) <= 100 ->
  AgentStatus.from_dict (AgentStatus.to_dict a) = Py.Ok a /\
  Alert.from_dict (Alert.to_dict al) = Py.Ok al /\
  Thresholds.from_dict (Thresholds.to_dict th) = Py.Ok th.
Proof.
  intros Ha Hal Hlen. split; [|split].
  - rewrite agent_round_trip_general by exact Ha.
    rewrite slice_last_short by exact Hlen.
    destruct a; reflexivity.
  - apply alert_round_trip. exact Hal.
  - apply thresholds_round_trip.
Qed.

Lemma round_trips_witness :
  let a := AgentStatus.mk "FORGE" (Some noon) true [1.0%Q; 2.0%Q] 5 4 0 0 2 0 in
  let al := Alert.mk (DateTime.mk 2026 1 25 12 0 0 250000) "CRITICAL"
                     (Some "FORGE") "ack_rate" "Test" 50.0 60.0 in
  AgentStatus.from_dict (AgentStatus.to_dict a) = Py.Ok a /\
  Alert.from_dict (Alert.to_dict al) = Py.Ok al /\
  Thresholds.from_dict (Thresholds.to_dict Thresholds.default)
  = Py.Ok Thresholds.default.
Proof.
  apply round_trips.
  - intros d H. injection H as <-. reflexivity.
  - reflexivity.
  - simpl. lia.
Defined.

End RoundTrips.

(** ** Further properties of the scorer *)

Section ScorerCurves.

Import CoherenceScorer.
Local Open Scope Q_scope.

Ltac cmp_facts :=
  repeat match goal with
  | H : Py.le _ _ = true |- _ => apply le_spec in H
  | H : Py.le _ _ = false |- _ => apply le_false in H
  | H : Py.lt _ _ = true |- _ => apply lt_spec in H
  | H : Py.lt _ _ = false |- _ => apply lt_false in H
  end.

(** A value strictly inside the band passes the clamp unchanged. *)
Lemma clamp_inside (s : Q) :
  0 < s -> s < 100 -> Py.max 0.0 (Py.min 100.0 s) = s.
Proof.
  intros H0 H1. unfold Py.max, Py.min, Py.gt.
  assert (E1 : Py.lt s 100.0 = true) by (apply lt_spec; lra).
  rewrite E1.
  assert (E2 : Py.lt 0.0 s = true) by (apply lt_spec; lra).
  rewrite E2. reflexivity.
Qed.

(** The linear ramp from [a] (score 100) to [c] (score 0), strictly between
    the two. *)
Lemma ramp_inside (a c x : Q) :
  a < x -> x < c ->
  0 < 100 - ((x - a) / (c - a) * 100) /\ 100 - ((x - a) / (c - a) * 100) < 100.
Proof.
  intros Hax Hxc.
  assert (Hd : 0 < c - a) by lra.
  assert (H0 : 0 < (x - a) / (c - a)).
  { apply Qlt_shift_div_l; [exact Hd|]. lra. }
  assert (H1 : (x - a) / (c - a) < 1).
  { apply Qlt_shift_div_r; [exact Hd|]. lra. }
  split; lra.
Qed.

Lemma ramp_mono (a c x y : Q) :
  a < c -> x <= y ->
  100 - ((y - a) / (c - a) * 100) <= 100 - ((x - a) / (c - a) * 100).
Proof.
  intros Hac Hxy.
  assert (Hd : (x - a) / (c - a) <= (y - a) / (c - a)).
  { unfold Qdiv. apply Qmult_le_compat_r; [lra|].
    apply Qlt_le_weak, Qinv_lt_0_compat. lra. }
  lra.
Qed.

Lemma score_activity_range (self : t) (x : Q) :
  0 <= score_activity self x <= 100.
Proof.
  unfold score_activity.
  destruct (Py.le x 0); [lra|].
  destruct (Py.ge x _); [lra|].
  destruct (Py.le x 30); [lra|].
  apply clamp_range.
Qed.

(** X1.  [score_activity] never increases with the time since the agent was
    seen and stays within [0, 100]; it is 100 up to 0 seconds and up to 30
    seconds below the critical-inactivity threshold, 0 for every positive
    time at or above that threshold, and on the ramp in between it is
    [100 - (x - 30) / (critical - 30) * 100]. *)
Theorem score_activity_curve (self : t) (x y : Q) :
  let c := Thresholds.inactive_critical (thresholds self) in
  (x <= y -> score_activity self y <= score_activity self x) /\
  0 <= score_activity self x <= 100 /\
  (x <= 0 -> score_activity self x == 100) /\
  (x <= 30 -> x < c -> score_activity self x == 100) /\
  (0 < x -> c <= x -> score_activity self x == 0) /\
  (30 < x -> x < c -> score_activity self x == 100 - (x - 30) / (c - 30) * 100).
Proof.
  intros c. split; [|split; [apply score_activity_range|]].
  - intros Hxy.
    pose proof (score_activity_range self x) as Rx.
    pose proof (score_activity_range self y) as Ry.
    revert Rx Ry. unfold score_activity, Py.ge. fold c.
    destruct (Py.le y 0) eqn:Y0; destruct (Py.le x 0) eqn:X0;
      destruct (Py.le c y) eqn:Yc; destruct (Py.le c x) eqn:Xc;
      destruct (Py.le y 30) eqn:Y5; destruct (Py.le x 30) eqn:X5;
      intros Rx Ry; cmp_facts; try lra.
    apply clamp_mono.
    apply ramp_mono; lra.
  - unfold score_activity, Py.ge. fold c.
    split; [|split; [|split]].
    + intros H. apply le_spec in H. rewrite H. reflexivity.
    + intros H30 Hc.
      destruct (Py.le x 0); [reflexivity|].
      assert (E : Py.le c x = false) by (apply le_false; exact Hc).
      rewrite E. apply le_spec in H30. rewrite H30. reflexivity.
    + intros H0 Hc.
      assert (E : Py.le x 0 = false) by (apply le_false; exact H0).
      rewrite E. apply le_spec in Hc. rewrite Hc. reflexivity.
    + intros H30 Hc.
      assert (E0 : Py.le x 0 = false) by (apply le_false; lra).
      assert (E1 : Py.le c x = false) by (apply le_false; exact Hc).
      assert (E2 : Py.le x 30 = false) by (apply le_false; exact H30).
      rewrite E0, E1, E2.
      destruct (ramp_inside 30.0 c x) as [R0 R1]; [lra|exact Hc|].
      rewrite clamp_inside by assumption.
      assert (E : (x - 30.0) / (c - 30.0) == (x - 30) / (c - 30)).
      { assert (E30 : 30.0 == 30) by reflexivity.
        rewrite E30. reflexivity. }
      rewrite E. reflexivity.
Qed.

Lemma score_activity_curve_witness :
  let self := mk Thresholds.default in
  score_activity self 200 <= score_activity self 100 /\
  score_activity self (-1) == 100 /\
  score_activity self 20 == 100 /\
  score_activity self 300 == 0 /\
  score_activity self 165 == 100 - (165 - 30) / (300.0 - 30) * 100.
Proof.
  destruct (score_activity_curve (mk Thresholds.default) 100 200) as (H1 & _).
  destruct (score_activity_curve (mk Thresholds.default) (-1) 0) as (_ & _ & H2 & _).
  destruct (score_activity_curve (mk Thresholds.default) 20 0) as (_ & _ & _ & H3 & _).
  destruct (score_activity_curve (mk Thresholds.default) 300 0) as (_ & _ & _ & _ & H4 & _).
  destruct (score_activity_curve (mk Thresholds.default) 165 0) as (_ & _ & _ & _ & _ & H5).
  split; [apply H1; vm_compute; discriminate|].
  split; [apply H2; vm_compute; discriminate|].
  split; [apply H3; vm_compute; [discriminate|reflexivity]|].
  split; [apply H4; vm_compute; [reflexivity|discriminate]|].
  apply H5; vm_compute; reflexivity.
Defined.



End ScorerCurves.

(** ** Rates, averages and the range of the scores *)

Section ScoreRanges.

Import CoherenceScorer.

Lemma round_half_even_mono (x y : Q) :
  (x <= y)%Q -> (Py.round_half_even x <= Py.round_half_even y)%Z.
Proof.
  intros Hxy. unfold Py.round_half_even.
  pose proof (Qfloor_resp_le x y Hxy) as Hf.
  destruct (Z.eq_dec (Qfloor x) (Qfloor y)) as [E|NE].
  - rewrite E.
    destruct (Qcompare (x - inject_Z (Qfloor y)) (1 # 2)) eqn:Cx;
      destruct (Qcompare (y - inject_Z (Qfloor y)) (1 # 2)) eqn:Cy;
      try (destruct (Z.even (Qfloor y)); lia);
      repeat match goal with
      | H : Qcompare _ _ = Eq |- _ => apply Qeq_alt in H
      | H : Qcompare _ _ = Lt |- _ => apply Qlt_alt in H
      | H : Qcompare _ _ = Gt |- _ => apply Qgt_alt in H
      end; lra.
  - destruct (Qcompare (x - inject_Z (Qfloor x)) (1 # 2));
      destruct (Qcompare (y - inject_Z (Qfloor y)) (1 # 2));
      destruct (Z.even (Qfloor x)); destruct (Z.even (Qfloor y)); lia.
Qed.

Lemma round1_mono (x y : Q) : (x <= y)%Q -> (Py.round1 x <= Py.round1 y)%Q.
Proof.
  intros Hxy. unfold Py.round1. rewrite !Qred_correct.
  unfold Qle. cbn [Qnum Qden].
  apply Z.mul_le_mono_nonneg_r; [lia|].
  apply round_half_even_mono. lra.
Qed.

Lemma round1_range (x : Q) :
  (0 <= x <= 100)%Q -> (0 <= Py.round1 x <= 100)%Q.
Proof.
  intros [H0 H1]. split.
  - change 0%Q with (Py.round1 0). apply round1_mono. exact H0.
  - change 100%Q with (Py.round1 100). apply round1_mono. exact H1.
Qed.

Lemma sum_bounds (lo hi : Q) (l : list Q) :
  Forall (fun v => (lo <= v <= hi)%Q) l ->
  (inject_Z (Z.of_nat (length l)) * lo <= Py.sum l
   <= inject_Z (Z.of_nat (length l)) * hi)%Q.
Proof.
  induction 1 as [|v l [Hv1 Hv2] Hl IH].
  - cbn [Py.sum fold_right length].
    change (inject_Z (Z.of_nat 0)) with 0%Q. lra.
  - cbn [Py.sum fold_right length]. fold (Py.sum l).
    rewrite Nat2Z.inj_succ. unfold Z.succ. rewrite inject_Z_plus.
    change (inject_Z 1) with 1%Q. lra.
Qed.

(** The mean of a non-empty sample lies between any bounds of the sample. *)
Lemma mean_bounds (lo hi : Q) (l : list Q) :
  l <> [] -> Forall (fun v => (lo <= v <= hi)%Q) l ->
  exists m, Py.mean l = Py.Ok m /\ (lo <= m <= hi)%Q.
Proof.
  intros Hne Hall. destruct l as [|v l]; [congruence|].
  eexists. split; [reflexivity|].
  pose proof (sum_bounds lo hi (v :: l) Hall) as [H1 H2].
  assert (Hpos : (0 < inject_Z (Z.of_nat (length (v :: l))))%Q).
  { rewrite <- (Zlt_Qlt 0). simpl length. lia. }
  split.
  - apply Qle_shift_div_l; [exact Hpos|]. lra.
  - apply Qle_shift_div_r; [exact Hpos|]. lra.
Qed.

(** A ratio of counters as a percentage. *)
Lemma percentage_bounds (part whole : Z) :
  (0 < whole)%Z ->
  ((0 <= part <= whole)%Z ->
   (0 <= inject_Z part / inject_Z whole * 100 <= 100)%Q) /\
  ((whole < part)%Z -> (100 < inject_Z part / inject_Z whole * 100)%Q).
Proof.
  intros Hw.
  assert (Hq : (0 < inject_Z whole)%Q) by (rewrite <- (Zlt_Qlt 0); exact Hw).
  split.
  - intros [H0 H1].
    assert (A : (0 <= inject_Z part / inject_Z whole)%Q).
    { apply Qle_shift_div_l; [exact Hq|].
      rewrite Qmult_0_l. rewrite <- (Zle_Qle 0). exact H0. }
    assert (B : (inject_Z part / inject_Z whole <= 1)%Q).
    { apply Qle_shift_div_r; [exact Hq|].
      rewrite Qmult_1_l. rewrite <- Zle_Qle. exact H1. }
    lra.
  - intros H.
    assert (B : (1 < inject_Z part / inject_Z whole)%Q).
    { apply Qlt_shift_div_l; [exact Hq|].
      rewrite Qmult_1_l. rewrite <- Zlt_Qlt. exact H. }
    lra.
Qed.

Lemma consistent_rates (a : AgentStatus.t) :
  (0 <= AgentStatus.mentions_acknowledged a <= AgentStatus.mentions_received a)%Z ->
  (0 <= AgentStatus.correct_claims a <= AgentStatus.total_claims a)%Z ->
  (0 <= AgentStatus.ack_rate a <= 100)%Q /\
  (0 <= AgentStatus.context_fidelity a <= 100)%Q.
Proof.
  intros Ha Hf. unfold AgentStatus.ack_rate, AgentStatus.context_fidelity.
  split.
  - destruct (Z.eqb_spec (AgentStatus.mentions_received a) 0); [lra|].
    apply percentage_bounds; lia.
  - destruct (Z.eqb_spec (AgentStatus.total_claims a) 0); [lra|].
    apply percentage_bounds; lia.
Qed.



(** X4.  The average latency of an agent without recorded latencies is 0.0;
    otherwise it lies between any two bounds of the recorded latencies. *)
Theorem avg_latency_bounds (a : AgentStatus.t) (lo hi : Q) :
  (AgentStatus.response_latencies a = [] -> AgentStatus.avg_latency a = 0.0%Q) /\
  (AgentStatus.response_latencies a <> [] ->
   Forall (fun v => (lo <= v <= hi)%Q) (AgentStatus.response_latencies a) ->
   (lo <= AgentStatus.avg_latency a <= hi)%Q).
Proof.
  unfold AgentStatus.avg_latency. split.
  - intros ->. reflexivity.
  - intros Hne Hall.
    destruct (mean_bounds lo hi _ Hne Hall) as (m & Hm & Hb).
    destruct (AgentStatus.response_latencies a) as [|v l]; [congruence|].
    rewrite Hm. exact Hb.
Qed.

Lemma avg_latency_bounds_witness :
  AgentStatus.avg_latency (AgentStatus.new "FORGE") = 0.0%Q /\
  (2 <= AgentStatus.avg_latency
          (AgentStatus.mk "FORGE" None false [2.5%Q; 4%Q; 3%Q] 0 0 0 0 3 0) <= 4)%Q.
Proof.
  destruct (avg_latency_bounds (AgentStatus.new "FORGE") 0 0) as (H1 & _).
  destruct (avg_latency_bounds
              (AgentStatus.mk "FORGE" None false [2.5%Q; 4%Q; 3%Q] 0 0 0 0 3 0) 2 4)
    as (_ & H2).
  split; [apply H1; reflexivity|].
  apply H2; [discriminate|].
  repeat constructor; vm_compute; discriminate.
Defined.

(** X5.  For an agent with consistent counters the coherence score lies in
    [0, 100], whatever the thresholds, the latency history and the time. *)
Theorem calculate_agent_score_range (self : t) (agent : AgentStatus.t)
    (now : DateTime.datetime) :
  (0 <= AgentStatus.mentions_acknowledged agent
     <= AgentStatus.mentions_received agent)%Z ->
  (0 <= AgentStatus.correct_claims agent <= AgentStatus.total_claims agent)%Z ->
  (0 <= calculate_agent_score self agent now <= 100)%Q.
Proof.
  intros Hack Hfid.
  destruct (consistent_rates agent Hack Hfid) as [Ra Rf].
  unfold calculate_agent_score.
  pose proof (score_latency_range self (AgentStatus.avg_latency agent)) as Rl.
  pose proof (score_activity_range self (seconds_since self agent now)) as Rs.
  apply round1_range.
  unfold WEIGHTS_ack_rate, WEIGHTS_latency, WEIGHTS_fidelity, WEIGHTS_activity.
  lra.
Qed.

Lemma calculate_agent_score_range_witness :
  (0 <= calculate_agent_score (mk Thresholds.default)
          (AgentStatus.mk "FORGE" (Some noon) true [70%Q] 10 5 1 4 1 0) noon
     <= 100)%Q.
Proof.
  apply calculate_agent_score_range; simpl; lia.
Defined.

(** X6.  Without agents the team score is 100.0 with an empty score map.
    Otherwise the score map has one entry for every agent, its agent score,
    and the team score lies between the roundings of any two bounds of the
    agent scores. *)
Theorem calculate_team_score_bounds (self : t) (agents : gmap string AgentStatus.t)
    (now : DateTime.datetime) (lo hi : Q) :
  calculate_team_score self ∅ now = Py.Ok (100.0%Q, ∅) /\
  (agents <> ∅ ->
   (forall name agent, agents !! name = Some agent ->
                       (lo <= calculate_agent_score self agent now <= hi)%Q) ->
   exists score scores,
     calculate_team_score self agents now = Py.Ok (score, scores) /\
     (forall name,
        scores !! name
        = (fun agent => calculate_agent_score self agent now) <$> agents !! name) /\
     (Py.round1 lo <= score <= Py.round1 hi)%Q).
Proof.
  split; [reflexivity|].
  intros Hne Hall. unfold calculate_team_score.
  rewrite bool_decide_eq_false_2 by exact Hne.
  rewrite bool_decide_eq_false_2 by (intros H; apply fmap_empty_inv in H; tauto).
  destruct (mean_bounds lo hi
              (values ((fun agent => calculate_agent_score self agent now) <$> agents)))
    as (m & Hm & Hb).
  - unfold values. intros H. apply fmap_nil_inv in H.
    apply map_to_list_empty_iff, fmap_empty_inv in H. tauto.
  - unfold values. apply Forall_fmap, Forall_forall.
    intros [k v] Hin. apply elem_of_map_to_list in Hin.
    rewrite lookup_fmap in Hin.
    destruct (agents !! k) as [agent|] eqn:Ek; simpl in Hin; [|discriminate].
    injection Hin as <-. simpl. apply (Hall k agent Ek).
  - rewrite Hm. simpl. eexists. eexists. split; [reflexivity|]. split.
    + intros name. apply lookup_fmap.
    + split; apply round1_mono; tauto.
Qed.

Lemma calculate_team_score_bounds_witness :
  let agents : gmap string AgentStatus.t :=
    <["FORGE" := AgentStatus.mk "FORGE" None false [] 10 5 0 0 0 0]>
      (<["ATLAS" := AgentStatus.new "ATLAS"]> ∅) in
  exists score scores,
    calculate_team_score (mk Thresholds.default) agents noon = Py.Ok (score, scores) /\
    (forall name,
       scores !! name
       = (fun agent => calculate_agent_score (mk Thresholds.default) agent noon)
           <$> agents !! name) /\
    (Py.round1 70 <= score <= Py.round1 85)%Q.
Proof.
  intros agents.
  destruct (calculate_team_score_bounds (mk Thresholds.default) agents noon 70 85)
    as (_ & H).
  apply H.
  - subst agents. apply insert_non_empty.
  - intros name agent. subst agents.
    rewrite lookup_insert_Some, lookup_insert_Some, lookup_empty.
    intros [[_ <-]|[_ [[_ <-]|[_ Hn]]]]; [| |discriminate];
      vm_compute; split; discriminate.
Defined.

End ScoreRanges.

(** ** What the alerts say *)

Section AlertContents.

Import AlertSystem.

Lemma In_rule (a : Alert.t) (p c w : bool) (x y : Alert.t) :
  In a (rule p c w x y) ->
  p = true /\ ((c = true /\ a = x) \/ (c = false /\ w = true /\ a = y)).
Proof.
  unfold rule. destruct p, c, w; simpl; intros H; try tauto;
    destruct H as [<-|[]]; tauto.
Qed.

Lemma rule_nil (p c w : bool) (x y : Alert.t) :
  rule p c w x y = [] <-> p && (c || w) = false.
Proof. unfold rule. destruct p, c, w; simpl; split; congruence. Qed.

(** X7.  [check_team_coherence] tests the critical cutoff first: a score
    below it gives a CRITICAL alert, a score below the warning cutoff only
    gives a WARNING alert, any other score gives no alert.  The alert is
    team-scoped (no agent), tagged coherence, stamped with the time of the
    check, and carries the score and the cutoff it is below. *)
Theorem check_team_coherence_cases (sys : t) (score : Q) (now : DateTime.datetime) :
  let th := thresholds sys in
  ((score < Thresholds.coherence_critical th)%Q ->
   exists a, check_team_coherence sys score now = Some a /\
             Alert.severity a = "CRITICAL" /\
             Alert.threshold a = Thresholds.coherence_critical th) /\
  ((Thresholds.coherence_critical th <= score)%Q ->
   (score < Thresholds.coherence_warning th)%Q ->
   exists a, check_team_coherence sys score now = Some a /\
             Alert.severity a = "WARNING" /\
             Alert.threshold a = Thresholds.coherence_warning th) /\
  ((Thresholds.coherence_critical th <= score)%Q ->
   (Thresholds.coherence_warning th <= score)%Q ->
   check_team_coherence sys score now = None) /\
  (forall a, check_team_coherence sys score now = Some a ->
     Alert.agent a = None /\ Alert.metric a = "coherence" /\
     Alert.timestamp a = now /\ Alert.value a = score /\
     configured_threshold th "coherence" (Alert.severity a) = Some (Alert.threshold a) /\
     crossing a).
Proof.
  intros th. unfold check_team_coherence. fold th.
  split; [|split; [|split]].
  - intros H. apply lt_spec in H. rewrite H. eexists. repeat split.
  - intros H1 H2. apply lt_false in H1. apply lt_spec in H2. rewrite H1, H2.
    eexists. repeat split.
  - intros H1 H2. apply lt_false in H1. apply lt_false in H2. rewrite H1, H2.
    reflexivity.
  - intros a.
    destruct (Py.lt score (Thresholds.coherence_critical th)) eqn:E1;
      [|destruct (Py.lt score (Thresholds.coherence_warning th)) eqn:E2];
      intros H; try discriminate; injection H as <-;
      (repeat split; unfold crossing; simpl; apply lt_spec; assumption).
Qed.

Lemma check_team_coherence_cases_witness :
  let sys := AlertSystem.new Thresholds.default in
  (exists a, check_team_coherence sys 40 noon = Some a /\
             Alert.severity a = "CRITICAL" /\ Alert.threshold a = 50.0%Q) /\
  (exists a, check_team_coherence sys 70 noon = Some a /\
             Alert.severity a = "WARNING" /\ Alert.threshold a = 75.0%Q) /\
  check_team_coherence sys 85 noon = None.
Proof.
  destruct (check_team_coherence_cases (AlertSystem.new Thresholds.default) 40 noon)
    as (H1 & _).
  destruct (check_team_coherence_cases (AlertSystem.new Thresholds.default) 70 noon)
    as (_ & H2 & _).
  destruct (check_team_coherence_cases (AlertSystem.new Thresholds.default) 85 noon)
    as (_ & _ & H3 & _).
  split; [apply H1; vm_compute; reflexivity|].
  split; [apply H2; vm_compute; [discriminate|reflexivity]|].
  apply H3; vm_compute; discriminate.
Defined.

(** X8.  Every alert [check_agent] returns names the agent checked, is
    stamped with the time of the check, is CRITICAL or WARNING, carries the
    configured cutoff of its metric at its severity and the value measured
    for that metric, and the value is on the alerting side of the cutoff:
    below it for ack_rate and fidelity, at or above it for latency and
    activity. *)
Theorem check_agent_alerts_justified (sys : t) (agent : AgentStatus.t)
    (now : DateTime.datetime) (a : Alert.t) :
  In a (check_agent sys agent now) ->
  Alert.agent a = Some (AgentStatus.name agent) /\
  Alert.timestamp a = now /\
  (Alert.severity a = "CRITICAL" \/ Alert.severity a = "WARNING") /\
  configured_threshold (thresholds sys) (Alert.metric a) (Alert.severity a)
  = Some (Alert.threshold a) /\
  metric_value agent now (Alert.metric a) = Some (Alert.value a) /\
  crossing a.
Proof.
  intros Ha. unfold check_agent in Ha. cbv zeta in Ha.
  unfold metric_value.
  destruct (AgentStatus.last_seen agent) as [seen|].
  - rewrite !append_rule in Ha. rewrite append_rule_checked in Ha.
    repeat (apply in_app_or in Ha; destruct Ha as [Ha|Ha]);
      try (destruct Ha; fail);
      apply In_rule in Ha;
      destruct Ha as (Hp & [(Hc & ->)|(Hc & Hw & ->)]);
      unfold crossing; simpl;
      (repeat split; try (left; reflexivity); try (right; reflexivity);
       first [apply lt_spec; assumption | apply le_spec; assumption]).
  - rewrite !append_rule in Ha.
    repeat (apply in_app_or in Ha; destruct Ha as [Ha|Ha]);
      try (destruct Ha; fail);
      apply In_rule in Ha;
      destruct Ha as (Hp & [(Hc & ->)|(Hc & Hw & ->)]);
      unfold crossing; simpl;
      (repeat split; try (left; reflexivity); try (right; reflexivity);
       first [apply lt_spec; assumption | apply le_spec; assumption]).
Qed.

Lemma check_agent_alerts_justified_witness :
  let agent := AgentStatus.mk "FORGE" (Some noon) true [70%Q] 10 8 0 0 1 0 in
  let a := Alert.mk noon "CRITICAL" (Some "FORGE") "latency"
             "FORGE response latency critically high" 70 60.0 in
  Alert.agent a = Some "FORGE" /\
  Alert.timestamp a = noon /\
  (Alert.severity a = "CRITICAL" \/ Alert.severity a = "WARNING") /\
  configured_threshold Thresholds.default (Alert.metric a) (Alert.severity a)
  = Some (Alert.threshold a) /\
  metric_value agent noon (Alert.metric a) = Some (Alert.value a) /\
  crossing a.
Proof.
  apply (check_agent_alerts_justified (AlertSystem.new Thresholds.default)
           (AgentStatus.mk "FORGE" (Some noon) true [70%Q] 10 8 0 0 1 0) noon).
  vm_compute. left. reflexivity.
Defined.

(** X9.  [check_agent] returns no alert exactly when no metric that has a
    signal crosses its critical or its warning cutoff. *)
Theorem check_agent_quiet (sys : t) (agent : AgentStatus.t) (now : DateTime.datetime) :
  check_agent sys agent now = [] <->
  forall metric, In metric ["ack_rate"; "latency"; "fidelity"; "activity"] ->
    signal_present agent metric
    && (crosses true (thresholds sys) agent now metric
        || crosses false (thresholds sys) agent now metric) = false.
Proof.
  destruct (check_agent_rules sys agent now)
    as (c1 & w1 & c2 & w2 & c3 & w3 & c4 & w4 & Heq & _).
  cbv zeta in Heq. rewrite Heq. clear Heq.
  split.
  - intros H.
    apply app_eq_nil in H. destruct H as [H1 H].
    apply app_eq_nil in H. destruct H as [H2 H].
    apply app_eq_nil in H. destruct H as [H3 H4].
    apply rule_nil in H1, H2, H3, H4.
    intros metric [<-|[<-|[<-|[<-|[]]]]]; assumption.
  - intros H.
    rewrite (proj2 (rule_nil _ _ _ c1 w1)) by (apply H; simpl; tauto).
    rewrite (proj2 (rule_nil _ _ _ c2 w2)) by (apply H; simpl; tauto).
    rewrite (proj2 (rule_nil _ _ _ c3 w3)) by (apply H; simpl; tauto).
    rewrite (proj2 (rule_nil _ _ _ c4 w4)) by (apply H; simpl; tauto).
    reflexivity.
Qed.

End AlertContents.

(** ** Reading, clearing and feeding the alert lists *)

Section AlertLists.

Import AlertSystem.

(** X10.  [get_active_alerts] with a severity returns exactly the active
    alerts of that severity, in their order; without one, or with the empty
    string, it returns all active alerts. *)
Theorem get_active_alerts_filter (sys : t) (sev : string) :
  get_active_alerts sys None = active_alerts sys /\
  get_active_alerts sys (Some "") = active_alerts sys /\
  (sev <> "" ->
   get_active_alerts sys (Some sev)
   = List.filter (fun a => String.eqb (Alert.severity a) sev) (active_alerts sys) /\
   forall a, In a (get_active_alerts sys (Some sev)) <->
             In a (active_alerts sys) /\ Alert.severity a = sev).
Proof.
  split; [reflexivity|]. split; [reflexivity|].
  intros Hne. unfold get_active_alerts.
  destruct (String.eqb_spec sev ""); [contradiction|]. simpl.
  split; [reflexivity|].
  intros a. rewrite filter_In, String.eqb_eq. reflexivity.
Qed.

Lemma get_active_alerts_filter_witness :
  let sys := AlertSystem.mk Thresholds.default
               [sample_alert (Some "FORGE") "latency";
                Alert.mk noon "CRITICAL" None "coherence" "Test alert" 40 50.0]
               [] in
  get_active_alerts sys (Some "CRITICAL")
  = [Alert.mk noon "CRITICAL" None "coherence" "Test alert" 40 50.0].
Proof.
  intros sys.
  destruct (get_active_alerts_filter sys "CRITICAL") as (_ & _ & H).
  destruct H as [H _]; [discriminate|].
  rewrite H. reflexivity.
Defined.

Lemma kept_agent_only (g : string) (a : Alert.t) :
  kept (Some g) None a = negb (bool_decide (Alert.agent a = Some g)).
Proof.
  unfold kept. rewrite (bool_decide_eq_true_2 (None = None)) by reflexivity.
  rewrite (bool_decide_eq_false_2 (Some g = None)) by discriminate.
  rewrite orb_true_r, andb_true_r. simpl.
  destruct (decide (Alert.agent a = Some g)) as [E|E].
  - rewrite bool_decide_eq_false_2 by tauto.
    rewrite bool_decide_eq_true_2 by exact E. reflexivity.
  - rewrite bool_decide_eq_true_2 by exact E.
    rewrite bool_decide_eq_false_2 by exact E. reflexivity.
Qed.

Lemma filter_complement_length {A : Type} (f : A -> bool) (l : list A) :
  length l = length (List.filter f l) + length (List.filter (fun x => negb (f x)) l).
Proof.
  induction l as [|x l IH]; [reflexivity|].
  simpl. destruct (f x); simpl; lia.
Qed.

(** X11.  The facade's [clear_alerts] with an agent name removes exactly
    the active alerts that carry that name, keeps the others in their
    order, returns the number of alerts removed, and changes neither the
    alert history nor the agents, snapshots and thresholds. *)
Theorem facade_clear_alerts_by_agent (m : TeamCoherenceMonitor.t) (g : string) :
  let r := TeamCoherenceMonitor.clear_alerts m (Some g) in
  let before := active_alerts (TeamCoherenceMonitor.alerts m) in
  let after := active_alerts (TeamCoherenceMonitor.alerts r.1) in
  after = List.filter (fun a => negb (bool_decide (Alert.agent a = Some g))) before /\
  (forall a, In a after <-> In a before /\ Alert.agent a <> Some g) /\
  r.2 = Z.of_nat (length (List.filter
                            (fun a => bool_decide (Alert.agent a = Some g)) before)) /\
  (r.2 = Z.of_nat (length before) - Z.of_nat (length after))%Z /\
  alert_history (TeamCoherenceMonitor.alerts r.1)
  = alert_history (TeamCoherenceMonitor.alerts m) /\
  TeamCoherenceMonitor.agents r.1 = TeamCoherenceMonitor.agents m /\
  TeamCoherenceMonitor.snapshots r.1 = TeamCoherenceMonitor.snapshots m /\
  TeamCoherenceMonitor.thresholds r.1 = TeamCoherenceMonitor.thresholds m.
Proof.
  intros r before after. subst r before after.
  unfold TeamCoherenceMonitor.clear_alerts, clear_alerts. simpl.
  assert (E : List.filter (kept (Some g) None)
                (active_alerts (TeamCoherenceMonitor.alerts m))
              = List.filter (fun a => negb (bool_decide (Alert.agent a = Some g)))
                  (active_alerts (TeamCoherenceMonitor.alerts m))).
  { apply filter_ext. intros a. apply kept_agent_only. }
  rewrite E.
  split; [reflexivity|]. split.
  { intros a. rewrite filter_In, negb_true_iff, bool_decide_eq_false. reflexivity. }
  split.
  { rewrite (filter_complement_length
               (fun a => bool_decide (Alert.agent a = Some g))
               (active_alerts (TeamCoherenceMonitor.alerts m))) at 1.
    lia. }
  repeat split.
Qed.

Lemma filter_idemp {A : Type} (f : A -> bool) (l : list A) :
  List.filter f (List.filter f l) = List.filter f l.
Proof.
  apply filter_all. intros x Hx. apply filter_In in Hx. tauto.
Qed.

(** X12.  Clearing twice with the same filters is clearing once: the second
    call removes nothing, returns 0 and leaves the alert system as the first
    call left it. *)
Theorem clear_alerts_twice (sys : t) (agent metric : option string) :
  clear_alerts (clear_alerts sys agent metric).1 agent metric
  = ((clear_alerts sys agent metric).1, 0%Z).
Proof.
  unfold clear_alerts. simpl. rewrite filter_idemp. f_equal. lia.
Qed.

Lemma filter_later_cutoff (l : list Alert.t) (t1 t2 : DateTime.datetime) (d : Z) :
  (DateTime.to_micros t1 <= DateTime.to_micros t2)%Z ->
  List.filter (fun a => DateTime.after_cutoff (Alert.timestamp a) t2 d)
    (List.filter (fun a => DateTime.after_cutoff (Alert.timestamp a) t1 d) l)
  = List.filter (fun a => DateTime.after_cutoff (Alert.timestamp a) t2 d) l.
Proof.
  intros Ht. induction l as [|a l IH]; [reflexivity|].
  cbn [List.filter].
  destruct (DateTime.after_cutoff (Alert.timestamp a) t1 d) eqn:E1;
    cbn [List.filter].
  - rewrite IH. reflexivity.
  - rewrite IH.
    assert (E2 : DateTime.after_cutoff (Alert.timestamp a) t2 d = false).
    { unfold DateTime.after_cutoff in *. lia. }
    rewrite E2. reflexivity.
Qed.

(** X13.  Two [process_alerts] calls in a row, the second not earlier than
    the first, leave the alert system in the state of a single call at the
    second time with both batches: pruning at the earlier time removes
    nothing the later call would keep, and the history cap may be applied
    at every step. *)
Theorem process_alerts_twice (sys : t) (first second : list Alert.t)
    (t1 t2 : DateTime.datetime) :
  (DateTime.to_micros t1 <= DateTime.to_micros t2)%Z ->
  process_alerts (process_alerts sys first t1) second t2
  = process_alerts sys (first ++ second) t2.
Proof.
  intros Ht.
  assert (Hth : forall s l t, thresholds (process_alerts s l t) = thresholds s).
  { intros s l t. unfold process_alerts.
    destruct (fold_left _ _ _). reflexivity. }
  assert (E : forall s : AlertSystem.t,
            s = AlertSystem.mk (thresholds s) (active_alerts s) (alert_history s)).
  { intros [? ? ?]. reflexivity. }
  rewrite (E (process_alerts (process_alerts sys first t1) second t2)).
  rewrite (E (process_alerts sys (first ++ second) t2)).
  rewrite !Hth, !process_alerts_active, !process_alerts_history.
  f_equal.
  - rewrite !List.filter_app. rewrite !filter_later_cutoff by exact Ht.
    rewrite <- app_assoc. reflexivity.
  - rewrite slice_last_app, <- app_assoc. reflexivity.
Qed.

Lemma process_alerts_twice_witness :
  let sys := AlertSystem.new Thresholds.default in
  let later := DateTime.mk 2026 1 25 13 30 0 0 in
  process_alerts (process_alerts sys [sample_alert (Some "FORGE") "latency"] noon)
                 [sample_alert None "coherence"] later
  = process_alerts sys [sample_alert (Some "FORGE") "latency";
                        sample_alert None "coherence"] later.
Proof.
  apply (process_alerts_twice (AlertSystem.new Thresholds.default)
           [sample_alert (Some "FORGE") "latency"] [sample_alert None "coherence"]).
  vm_compute. discriminate.
Defined.

End AlertLists.

(** ** The full alert check *)

Section FullCheck.

Import TeamCoherenceMonitor.

Lemma check_agent_timestamp (sys : AlertSystem.t) (agent : AgentStatus.t)
    (now : DateTime.datetime) (a : Alert.t) :
  In a (AlertSystem.check_agent sys agent now) -> Alert.timestamp a = now.
Proof.
  intros Ha. unfold AlertSystem.check_agent in Ha. cbv zeta in Ha.
  destruct (AgentStatus.last_seen agent) as [seen|];
    rewrite !append_rule in Ha; rewrite ?append_rule_checked in Ha;
    repeat (apply in_app_or in Ha; destruct Ha as [Ha|Ha]);
    try (destruct Ha; fail);
    apply In_rule in Ha;
    destruct Ha as (_ & [(_ & ->)|(_ & _ & ->)]); reflexivity.
Qed.

Lemma check_team_coherence_timestamp (sys : AlertSystem.t) (score : Q)
    (now : DateTime.datetime) (a : Alert.t) :
  AlertSystem.check_team_coherence sys score now = Some a ->
  Alert.timestamp a = now /\ Alert.agent a = None /\ Alert.metric a = "coherence".
Proof.
  unfold AlertSystem.check_team_coherence.
  repeat match goal with |- context [if ?b then _ else _] => destruct b end;
    intros H; try discriminate; injection H as <-; repeat split.
Qed.

(** Where the alerts gathered over the agents come from. *)
Lemma gathered_alerts (m : t) (now : DateTime.datetime) (order : list string) :
  forall (acc : list Alert.t) (a : Alert.t),
    In a (fold_left
            (fun acc name =>
               match agents m !! name with
               | Some agent => acc ++ AlertSystem.check_agent (alerts m) agent now
               | None => acc
               end)
            order acc) ->
    In a acc \/
    exists name agent,
      In name order /\ agents m !! name = Some agent /\
      In a (AlertSystem.check_agent (alerts m) agent now).
Proof.
  induction order as [|n order IH]; intros acc a Ha; simpl in Ha.
  - left. exact Ha.
  - apply IH in Ha. destruct Ha as [Ha|(name & agent & Hn & Hl & Hin)].
    + destruct (agents m !! n) as [agent|] eqn:E.
      * apply in_app_or in Ha. destruct Ha as [Ha|Ha]; [left; exact Ha|].
        right. exists n, agent. split; [left; reflexivity|]. split; assumption.
      * left. exact Ha.
    + right. exists name, agent. split; [right; exact Hn|]. split; assumption.
Qed.

(** X14.  [check_all_alerts] always returns.  Every alert it returns was
    produced by [check_agent] for a registered agent or is the team
    coherence alert, is stamped with the time of the check and is among the
    active alerts afterwards; the returned alerts are appended to the
    history, which keeps its last 1000 entries; the agents and the snapshots
    are not touched. *)
Theorem check_all_alerts_recorded (m : t) (order : list string)
    (now : DateTime.datetime) :
  exists m' new_alerts,
    check_all_alerts m order now = Py.Ok (m', new_alerts) /\
    (forall a, In a new_alerts ->
       Alert.timestamp a = now /\
       In a (AlertSystem.active_alerts (alerts m')) /\
       ((Alert.agent a = None /\ Alert.metric a = "coherence") \/
        exists name agent,
          In name order /\ agents m !! name = Some agent /\
          In a (AlertSystem.check_agent (alerts m) agent now))) /\
    AlertSystem.alert_history (alerts m')
    = Py.slice_last 1000 (AlertSystem.alert_history (alerts m) ++ new_alerts) /\
    agents m' = agents m /\ snapshots m' = snapshots m.
Proof.
  unfold check_all_alerts.
  destruct (get_coherence_score_total m now) as [score Hs]. rewrite Hs.
  cbn [mbind result_bind Py.bind].
  set (gathered := fold_left _ order []).
  set (new_alerts := match AlertSystem.check_team_coherence _ _ _ with
                     | Some c => gathered ++ [c]
                     | None => gathered
                     end).
  assert (Hsrc : forall a, In a new_alerts ->
            Alert.timestamp a = now /\
            ((Alert.agent a = None /\ Alert.metric a = "coherence") \/
             exists name agent,
               In name order /\ agents m !! name = Some agent /\
               In a (AlertSystem.check_agent (alerts m) agent now))).
  { assert (Hg : forall a, In a gathered ->
              Alert.timestamp a = now /\
              exists name agent,
                In name order /\ agents m !! name = Some agent /\
                In a (AlertSystem.check_agent (alerts m) agent now)).
    { intros a Ha. apply gathered_alerts in Ha.
      destruct Ha as [[]|(name & agent & Hn & Hl & Hin)].
      split; [apply (check_agent_timestamp _ _ _ _ Hin)|].
      exists name, agent. split; [exact Hn|]. split; assumption. }
    intros a Ha. subst new_alerts.
    destruct (AlertSystem.check_team_coherence (alerts m) score now) as [c|] eqn:Ec.
    - apply in_app_or in Ha. destruct Ha as [Ha|[<-|[]]].
      + destruct (Hg a Ha) as [Ht Hex]. split; [exact Ht|right; exact Hex].
      + apply check_team_coherence_timestamp in Ec.
        destruct Ec as (Ht & Hag & Hme). split; [exact Ht|left; split; assumption].
    - destruct (Hg a Ha) as [Ht Hex]. split; [exact Ht|right; exact Hex]. }
  exists (set_alerts (AlertSystem.process_alerts (alerts m) new_alerts now) m),
         new_alerts.
  split; [reflexivity|]. split.
  - intros a Ha. destruct (Hsrc a Ha) as [Ht Hfrom].
    split; [exact Ht|]. split; [|exact Hfrom].
    cbn [alerts set_alerts]. rewrite process_alerts_active.
    apply filter_In. split; [apply in_or_app; right; exact Ha|].
    rewrite Ht. unfold DateTime.after_cutoff, DateTime.timedelta_hours. lia.
  - cbn [alerts set_alerts agents snapshots].
    rewrite process_alerts_history. repeat split.
Qed.

End FullCheck.

(** ** The agent table *)

Section AgentTable.

Import TeamCoherenceMonitor.

Lemma get_agent_update_other (m : t) (name other : string)
    (f : AgentStatus.t -> AgentStatus.t) :
  Py.upper other <> Py.upper name ->
  get_agent (update_agent m name f) other = get_agent m other.
Proof.
  intros Hne. unfold update_agent, register_agent, get_agent.
  destruct (agents m !! Py.upper name); simpl;
    rewrite ?lookup_insert_ne by congruence; reflexivity.
Qed.

Lemma update_agent_rest (m : t) (name : string)
    (f : AgentStatus.t -> AgentStatus.t) :
  thresholds (update_agent m name f) = thresholds m /\
  scorer (update_agent m name f) = scorer m /\
  alerts (update_agent m name f) = alerts m /\
  snapshots (update_agent m name f) = snapshots m.
Proof.
  unfold update_agent, register_agent.
  destruct (agents m !! Py.upper name); repeat split.
Qed.

(** X15.  [register_agent] is idempotent and ignores case: a second
    registration under any spelling of the name returns the same state and
    the same record.  A record that is already registered is returned as it
    is, counters included; a new one has the canonical name and every other
    field at its default.  Afterwards every spelling of the name resolves to
    the record, and other names resolve as before. *)
Theorem register_agent_idempotent (m : t) (name again other : string) :
  let r := register_agent m name in
  (Py.upper again = Py.upper name -> register_agent r.1 again = r) /\
  (forall agent, get_agent m name = Some agent -> r = (m, agent)) /\
  (get_agent m name = None -> r.2 = AgentStatus.new (Py.upper name)) /\
  (Py.upper again = Py.upper name -> get_agent r.1 again = Some r.2) /\
  (Py.upper other <> Py.upper name -> get_agent r.1 other = get_agent m other).
Proof.
  intros r. subst r. unfold register_agent, get_agent.
  split; [|split; [|split; [|split]]].
  - intros ->. destruct (agents m !! Py.upper name) as [agent|] eqn:E; simpl.
    + rewrite E. reflexivity.
    + rewrite lookup_insert_eq. reflexivity.
  - intros agent ->. reflexivity.
  - intros ->. reflexivity.
  - intros ->. destruct (agents m !! Py.upper name) as [agent|] eqn:E; simpl.
    + exact E.
    + apply lookup_insert_eq.
  - intros Hne. destruct (agents m !! Py.upper name); simpl;
      rewrite ?lookup_insert_ne by congruence; reflexivity.
Qed.

Lemma register_agent_idempotent_witness :
  let m := record_mention (new Thresholds.default) "forge" true in
  register_agent (register_agent m "Forge").1 "FORGE" = register_agent m "Forge" /\
  register_agent m "Forge" = (m, AgentStatus.mk "FORGE" None false [] 1 1 0 0 0 0) /\
  get_agent (register_agent m "Forge").1 "atlas" = get_agent m "atlas".
Proof.
  intros m.
  destruct (register_agent_idempotent m "Forge" "FORGE" "atlas")
    as (H1 & H2 & _ & _ & H5).
  split; [apply H1; reflexivity|].
  split; [apply H2; reflexivity|].
  apply H5. discriminate.
Defined.

(** X16.  [unregister_agent] reports whether the name (in any spelling) was
    registered; afterwards the name resolves to nothing, other names resolve
    as before, and a second call reports that nothing was found and changes
    nothing. *)
Theorem unregister_agent_removes (m : t) (name other : string) :
  let r := unregister_agent m name in
  r.2 = bool_decide (is_Some (get_agent m name)) /\
  get_agent r.1 name = None /\
  (Py.upper other <> Py.upper name -> get_agent r.1 other = get_agent m other) /\
  unregister_agent r.1 name = (r.1, false) /\
  (get_agent m name = None -> r = (m, false)).
Proof.
  intros r. subst r. unfold unregister_agent, get_agent.
  destruct (agents m !! Py.upper name) as [agent|] eqn:E; simpl.
  - split; [first [reflexivity | symmetry; apply bool_decide_eq_true_2; eauto]|].
    split; [apply lookup_delete_eq|].
    split; [intros Hne; apply lookup_delete_ne; congruence|].
    split; [rewrite lookup_delete_eq; reflexivity|discriminate].
  - split; [first [reflexivity | symmetry; apply bool_decide_eq_false_2; intros [x Hx]; discriminate]|].
    split; [exact E|].
    split; [reflexivity|].
    split; [rewrite E; reflexivity|reflexivity].
Qed.

Lemma unregister_agent_removes_witness :
  let m := (register_agent (register_agent (new Thresholds.default) "forge").1 "atlas").1 in
  get_agent (unregister_agent m "Forge").1 "ATLAS" = get_agent m "ATLAS" /\
  unregister_agent (new Thresholds.default) "forge" = (new Thresholds.default, false).
Proof.
  intros m.
  destruct (unregister_agent_removes m "Forge" "ATLAS") as (_ & _ & H3 & _).
  destruct (unregister_agent_removes (new Thresholds.default) "forge" "")
    as (_ & _ & _ & _ & H5).
  split; [apply H3; discriminate|apply H5; reflexivity].
Defined.

(** X17.  Registering a name that is not registered and unregistering it
    again gives back the monitor as it was. *)
Theorem register_unregister (m : t) (name : string) :
  get_agent m name = None ->
  unregister_agent (register_agent m name).1 name = (m, true).
Proof.
  unfold get_agent, unregister_agent, register_agent. intros E.
  rewrite E. simpl. rewrite lookup_insert_eq. simpl.
  rewrite delete_insert_eq, delete_id by exact E.
  destruct m; reflexivity.
Qed.

Lemma register_unregister_witness :
  unregister_agent (register_agent (new Thresholds.default) "forge").1 "FORGE"
  = (new Thresholds.default, true).
Proof. apply (register_unregister (new Thresholds.default) "forge"). reflexivity. Defined.

(** X18.  A recording operation for one agent changes the record of that
    agent only: every name with another canonical form resolves as before,
    and the thresholds, the alerts and the snapshots stay as they were. *)
Theorem recording_leaves_others (m : t) (name other : string) (flag : bool)
    (latency : Q) (now : DateTime.datetime) :
  Py.upper other <> Py.upper name ->
  forall m',
    In m' [record_activity m name now; record_mention m name flag;
           record_acknowledgment m name; record_response m name latency now;
           record_claim m name flag; record_error m name] ->
    get_agent m' other = get_agent m other /\
    thresholds m' = thresholds m /\ alerts m' = alerts m /\
    snapshots m' = snapshots m.
Proof.
  intros Hne m' Hin. simpl in Hin.
  repeat (destruct Hin as [<-|Hin]); try contradiction;
    unfold record_activity, record_mention, record_acknowledgment,
      record_response, record_claim, record_error;
    match goal with
    | |- context [update_agent ?st ?n ?f] =>
        destruct (update_agent_rest st n f) as (Ht & _ & Ha & Hs)
    end;
    (split; [apply get_agent_update_other; exact Hne|]);
    (split; [exact Ht|]); (split; [exact Ha|exact Hs]).
Qed.

Lemma recording_leaves_others_witness :
  let m := record_mention (new Thresholds.default) "atlas" true in
  get_agent (record_response m "forge" 2.5 noon) "atlas" = get_agent m "atlas".
Proof.
  intros m.
  destruct (recording_leaves_others m "forge" "atlas" true 2.5 noon)
    with (m' := record_response m "forge" 2.5 noon) as (H & _).
  - discriminate.
  - simpl. tauto.
  - exact H.
Defined.

End AgentTable.

(** ** Counters and the shape of the table *)

Section Counters.

Import TeamCoherenceMonitor.

Lemma record_mention_counters (m : t) (name : string) (ack : bool) :
  counter_of AgentStatus.mentions_received (record_mention m name ack) name
  = (counter_of AgentStatus.mentions_received m name + 1)%Z /\
  counter_of AgentStatus.mentions_acknowledged (record_mention m name ack) name
  = (counter_of AgentStatus.mentions_acknowledged m name + (if ack then 1 else 0))%Z.
Proof.
  unfold counter_of, record_mention.
  rewrite get_agent_update, register_agent_record.
  destruct (get_agent m name) as [agent|]; destruct ack; simpl; split; lia.
Qed.

Lemma record_mentions_registered (name : string) (flags : list bool) :
  forall m, flags <> [] -> is_Some (get_agent (record_mentions m name flags) name).
Proof.
  induction flags as [|b flags IH]; intros m Hne; [congruence|].
  destruct flags as [|b' flags'].
  - simpl. unfold record_mention. rewrite get_agent_update. eauto.
  - apply (IH (record_mention m name b)). discriminate.
Qed.

(** X19.  A run of [record_mention] calls for an agent raises its
    mentions-received counter by the number of calls and its
    mentions-acknowledged counter by the number of acknowledged ones (a name
    that is not registered counts from zero).  For an agent that was not
    registered before, the acknowledgment rate after a non-empty run is
    100 times the acknowledged share. *)
Theorem record_mentions_counts (m : t) (name : string) (flags : list bool) :
  let m' := record_mentions m name flags in
  counter_of AgentStatus.mentions_received m' name
  = (counter_of AgentStatus.mentions_received m name + Z.of_nat (length flags))%Z /\
  counter_of AgentStatus.mentions_acknowledged m' name
  = (counter_of AgentStatus.mentions_acknowledged m name + count_true flags)%Z /\
  (get_agent m name = None -> flags <> [] ->
   exists agent,
     get_agent m' name = Some agent /\
     (AgentStatus.ack_rate agent
      == inject_Z (count_true flags) / inject_Z (Z.of_nat (length flags)) * 100)%Q).
Proof.
  intros m'. subst m'.
  assert (Hcount : forall fl st,
    counter_of AgentStatus.mentions_received (record_mentions st name fl) name
    = (counter_of AgentStatus.mentions_received st name + Z.of_nat (length fl))%Z /\
    counter_of AgentStatus.mentions_acknowledged (record_mentions st name fl) name
    = (counter_of AgentStatus.mentions_acknowledged st name + count_true fl)%Z).
  { induction fl as [|b fl IH]; intros st.
    - unfold count_true. simpl. split; lia.
    - change (record_mentions st name (b :: fl))
        with (record_mentions (record_mention st name b) name fl).
      destruct (IH (record_mention st name b)) as [H1 H2].
      destruct (record_mention_counters st name b) as [S1 S2].
      rewrite H1, H2, S1, S2.
      unfold count_true. cbn [List.filter length].
      destruct b; cbn [length]; split; lia. }
  destruct (Hcount flags m) as [H1 H2].
  split; [exact H1|]. split; [exact H2|].
  intros Hnone Hne.
  destruct (record_mentions_registered name flags m Hne) as [agent Hag].
  exists agent. split; [exact Hag|].
  unfold counter_of in H1, H2. rewrite Hag, Hnone in H1, H2.
  unfold AgentStatus.ack_rate. rewrite H1, H2.
  destruct (Z.eqb_spec (0 + Z.of_nat (length flags)) 0) as [E|E].
  - destruct flags; [congruence|]. simpl length in E. lia.
  - rewrite !Z.add_0_l. reflexivity.
Qed.

Lemma record_mentions_counts_witness :
  let flags := [true; true; false; true; true] in
  exists agent,
    get_agent (record_mentions (new Thresholds.default) "FORGE" flags) "FORGE"
    = Some agent /\
    (AgentStatus.ack_rate agent == 80)%Q.
Proof.
  intros flags.
  destruct (record_mentions_counts (new Thresholds.default) "FORGE" flags)
    as (_ & _ & H).
  destruct H as (agent & Hag & Hrate); [reflexivity|discriminate|].
  exists agent. split; [exact Hag|]. rewrite Hrate. reflexivity.
Defined.

Lemma update_agent_canonical (m : t) (name : string)
    (f : AgentStatus.t -> AgentStatus.t) :
  (forall agent, AgentStatus.name (f agent) = AgentStatus.name agent) ->
  table_canonical m -> table_canonical (update_agent m name f).
Proof.
  intros Hf Hm key agent. unfold update_agent, register_agent.
  destruct (agents m !! Py.upper name) as [old|] eqn:E; simpl;
    rewrite ?insert_insert_eq; rewrite lookup_insert_Some.
  - intros [[<- <-]|[Hne Hl]]; [|exact (Hm key agent Hl)].
    split; [apply upper_idemp|]. rewrite Hf. apply (Hm _ _ E).
  - intros [[<- <-]|[Hne Hl]]; [|exact (Hm key agent Hl)].
    split; [apply upper_idemp|]. rewrite Hf. reflexivity.
Qed.

(** X20.  The agent table stays canonical: a monitor without agents has
    only canonical keys, and registering, unregistering and every recording
    operation keep the property that each key is an uppercase name and holds
    the record of that name.  In such a table the record a name resolves to
    carries the canonical form of the name. *)
Theorem table_stays_canonical (m : t) (name : string) (flag : bool)
    (latency : Q) (now : DateTime.datetime) (th : Thresholds.t) :
  table_canonical (new th) /\
  (table_canonical m ->
   (forall m',
      In m' [(register_agent m name).1; (unregister_agent m name).1;
             record_activity m name now; record_mention m name flag;
             record_acknowledgment m name; record_response m name latency now;
             record_claim m name flag; record_error m name] ->
      table_canonical m') /\
   (forall agent, get_agent m name = Some agent ->
                  AgentStatus.name agent = Py.upper name)).
Proof.
  split.
  - intros key agent H. simpl in H. rewrite lookup_empty in H. discriminate.
  - intros Hm. split.
    + intros m' Hin. simpl in Hin.
      destruct Hin as [<-|[<-|Hin]].
      * unfold register_agent.
        destruct (agents m !! Py.upper name) as [old|] eqn:E; simpl; [exact Hm|].
        intros key agent. simpl. rewrite lookup_insert_Some.
        intros [[<- <-]|[Hne Hl]]; [|exact (Hm key agent Hl)].
        split; [apply upper_idemp|reflexivity].
      * unfold unregister_agent.
        destruct (agents m !! Py.upper name) as [old|] eqn:E; simpl; [|exact Hm].
        intros key agent. simpl. rewrite lookup_delete_Some.
        intros [Hne Hl]. exact (Hm key agent Hl).
      * repeat (destruct Hin as [<-|Hin]); try contradiction;
          apply update_agent_canonical; try exact Hm;
          intros agent; try destruct flag; simpl;
          try destruct (100 <? _)%nat; reflexivity.
    + intros agent Hag. unfold get_agent in Hag.
      destruct (Hm _ _ Hag) as [_ Hn]. exact Hn.
Qed.

Lemma table_stays_canonical_witness :
  let m := record_mention (new Thresholds.default) "forge" true in
  table_canonical (record_response m "atlas" 2.5 noon) /\
  (forall agent, get_agent m "Forge" = Some agent -> AgentStatus.name agent = "FORGE").
Proof.
  intros m.
  assert (Hm : table_canonical m).
  { destruct (table_stays_canonical (new Thresholds.default) "forge" true 0 noon
                Thresholds.default) as (H0 & H).
    destruct (H H0) as [Hall _]. apply Hall. simpl. tauto. }
  destruct (table_stays_canonical m "atlas" true 2.5 noon Thresholds.default)
    as (_ & H).
  destruct (H Hm) as [Hall _].
  destruct (table_stays_canonical m "Forge" true 2.5 noon Thresholds.default)
    as (_ & H').
  destruct (H' Hm) as [_ Hname].
  split; [apply Hall; simpl; tauto|exact Hname].
Defined.

End Counters.

(** ** Binary64 rounding *)

Section Binary64.

Local Open Scope Q_scope.
























End Binary64.

(** ** Snapshots, trend and reset *)

Section Snapshots.

Import TeamCoherenceMonitor.

Lemma slice_last_snoc {A : Type} (n : nat) (l : list A) (x : A) :
  0 < n -> Py.slice_last n (l ++ [x]) = Py.slice_last (n - 1) l ++ [x].
Proof.
  intros Hn. unfold Py.slice_last.
  rewrite length_app. cbn [length].
  rewrite drop_app_le by lia. f_equal. f_equal. lia.
Qed.

(** X21.  [take_snapshot] always returns.  The snapshot carries the time of
    the call, the team score and the agent scores of that moment, the number
    of agents, the number of agents flagged active (never more than the
    number of agents) and the number of active alerts; it becomes the last
    entry of the snapshot history, which keeps its last 1000 entries; agents
    and alerts are not touched. *)
Theorem take_snapshot_recorded (m : t) (now : DateTime.datetime) :
  exists m' s,
    take_snapshot m now = Py.Ok (m', s) /\
    snapshots m' = Py.slice_last 1000 (snapshots m ++ [s]) /\
    (exists older, snapshots m' = older ++ [s]) /\
    length (snapshots m') <= 1000 /\
    CoherenceSnapshot.timestamp s = now /\
    get_coherence_score m now = Py.Ok (CoherenceSnapshot.overall_score s) /\
    get_agent_scores m now = Py.Ok (CoherenceSnapshot.agent_scores s) /\
    CoherenceSnapshot.total_agents s = Z.of_nat (size (agents m)) /\
    (0 <= CoherenceSnapshot.active_agents s <= CoherenceSnapshot.total_agents s)%Z /\
    CoherenceSnapshot.alerts_active s
    = Z.of_nat (length (AlertSystem.active_alerts (alerts m))) /\
    agents m' = agents m /\ alerts m' = alerts m.
Proof.
  unfold take_snapshot, get_coherence_score, get_agent_scores.
  destruct (calculate_team_score_total (scorer m) (agents m) now) as [score Hs].
  rewrite Hs. cbn [mbind result_bind Py.bind fst snd].
  eexists. eexists. split; [reflexivity|].
  cbn [snapshots set_snapshots agents alerts CoherenceSnapshot.timestamp
       CoherenceSnapshot.overall_score CoherenceSnapshot.agent_scores
       CoherenceSnapshot.total_agents CoherenceSnapshot.active_agents
       CoherenceSnapshot.alerts_active].
  match goal with
  | |- context [snapshots m ++ [?s]] => set (snap := s)
  end.
  assert (Hcap : (if (1000 <? length (snapshots m ++ [snap]))%nat
                  then Py.slice_last 1000 (snapshots m ++ [snap])
                  else snapshots m ++ [snap])
                 = Py.slice_last 1000 (snapshots m ++ [snap])).
  { destruct (1000 <? length (snapshots m ++ [snap]))%nat eqn:E; [reflexivity|].
    apply Nat.ltb_ge in E. symmetry. apply slice_last_short. exact E. }
  rewrite Hcap.
  split; [reflexivity|].
  split; [rewrite slice_last_snoc by lia; eexists; reflexivity|].
  split; [rewrite slice_last_length; lia|].
  split; [reflexivity|]. split; [reflexivity|]. split; [reflexivity|].
  split; [reflexivity|].
  split.
  { pose proof (filter_length_le (fun kv : string * AgentStatus.t =>
                                    AgentStatus.is_active kv.2)
                                 (map_to_list (agents m))) as Hle.
    rewrite length_map_to_list in Hle. lia. }
  split; [reflexivity|]. split; reflexivity.
Qed.



















End Snapshots.

(** ** Reading dictionaries: defaults, unknown keys, missing keys *)

Section ReadingDictionaries.

Lemma bind_ok {A B : Type} (r : Py.result A) (k : A -> Py.result B) (b : B) :
  r ≫= k = Py.Ok b -> exists a, r = Py.Ok a /\ k a = Py.Ok b.
Proof.
  destruct r as [a|e]; cbn [mbind result_bind Py.bind]; intros H;
    [exists a; split; [reflexivity|exact H]|discriminate].
Qed.

Lemma kwargs_lookup (data : gmap string Py.value) (key : string) :
  key ∈ Thresholds.dataclass_fields ->
  filter (fun kv : string * Py.value => kv.1 ∈ Thresholds.dataclass_fields) data !! key
  = data !! key.
Proof.
  intros Hk. destruct (data !! key) as [v|] eqn:E.
  - apply map_lookup_filter_Some. split; [exact E|exact Hk].
  - apply map_lookup_filter_None. left. exact E.
Qed.

Lemma kwarg_entry (data : gmap string Py.value) (key : string) (dflt x : Q) :
  key ∈ Thresholds.dataclass_fields ->
  Thresholds.kwarg
    (filter (fun kv : string * Py.value => kv.1 ∈ Thresholds.dataclass_fields) data)
    key dflt = Py.Ok x ->
  x = threshold_entry data key dflt.
Proof.
  intros Hk. unfold Thresholds.kwarg, threshold_entry.
  rewrite kwargs_lookup by exact Hk.
  destruct (data !! key) as [[]|]; simpl; intros H; try discriminate;
    injection H as <-; reflexivity.
Qed.

(** X25.  [Thresholds.from_dict] takes every field from the entry stored
    under the field's name and falls back to the field's default when the
    entry is absent: the empty dictionary gives the default thresholds, and
    an entry under a key that is not a field name is ignored. *)
Theorem thresholds_from_dict_entries (data : gmap string Py.value)
    (key : string) (v : Py.value) :
  Thresholds.from_dict ∅ = Py.Ok Thresholds.default /\
  (key ∉ Thresholds.dataclass_fields ->
   Thresholds.from_dict (<[key := v]> data) = Thresholds.from_dict data) /\
  (forall th, Thresholds.from_dict data = Py.Ok th ->
     th = Thresholds.mk
            (threshold_entry data "latency_warning" 30.0)
            (threshold_entry data "latency_critical" 60.0)
            (threshold_entry data "ack_rate_warning" 80.0)
            (threshold_entry data "ack_rate_critical" 60.0)
            (threshold_entry data "fidelity_warning" 90.0)
            (threshold_entry data "fidelity_critical" 70.0)
            (threshold_entry data "inactive_warning" 120.0)
            (threshold_entry data "inactive_critical" 300.0)
            (threshold_entry data "coherence_warning" 75.0)
            (threshold_entry data "coherence_critical" 50.0)).
Proof.
  split; [reflexivity|]. split.
  - intros Hk. unfold Thresholds.from_dict.
    rewrite map_filter_insert_not by (intros y; exact Hk). reflexivity.
  - intros th H. unfold Thresholds.from_dict in H. cbv zeta in H.
    repeat match type of H with
    | _ ≫= _ = Py.Ok _ =>
        apply bind_ok in H;
        let x := fresh "x" in
        let Hx := fresh "Hx" in
        destruct H as (x & Hx & H);
        apply kwarg_entry in Hx;
          [subst x|unfold Thresholds.dataclass_fields; repeat constructor]
    end.
    injection H as <-. reflexivity.
Qed.

Lemma thresholds_from_dict_entries_witness :
  Thresholds.from_dict
    (<["comment" := Py.VStr "tuned"]> (<["latency_warning" := Py.VFloat 15.0]> ∅))
  = Thresholds.from_dict (<["latency_warning" := Py.VFloat 15.0]> ∅) /\
  Thresholds.from_dict (<["latency_warning" := Py.VFloat 15.0]> ∅)
  = Py.Ok (Thresholds.mk 15.0 60.0 80.0 60.0 90.0 70.0 120.0 300.0 75.0 50.0).
Proof.
  destruct (thresholds_from_dict_entries
              (<["latency_warning" := Py.VFloat 15.0]> ∅) "comment" (Py.VStr "tuned"))
    as (_ & H2 & H3).
  split.
  - apply H2. vm_compute. intros H.
    repeat (apply elem_of_cons in H; destruct H as [H|H]; [discriminate H|]).
    apply elem_of_nil in H. exact H.
  - destruct (Thresholds.from_dict (<["latency_warning" := Py.VFloat 15.0]> ∅))
      as [th|e] eqn:E; [|vm_compute in E; discriminate E].
    rewrite (H3 th eq_refl). reflexivity.
Defined.

(** X26.  [AgentStatus.from_dict] needs the name only: without a "name"
    entry it raises [KeyError], and every other entry has a default, so a
    dictionary that holds just a name gives the record with that name and
    the default of every other field.  A [last_seen] entry that is [None] or the empty
    string reads as never seen. *)
Theorem agent_from_dict_defaults (data : gmap string Py.value) (n : string) :
  (data !! "name" = None -> AgentStatus.from_dict data = Py.Raise (Py.KeyError "name")) /\
  AgentStatus.from_dict (<["name" := Py.VStr n]> ∅) = Py.Ok (AgentStatus.new n) /\
  AgentStatus.from_dict (<["last_seen" := Py.VNone]> (<["name" := Py.VStr n]> ∅))
  = Py.Ok (AgentStatus.new n) /\
  AgentStatus.from_dict (<["last_seen" := Py.VStr ""]> (<["name" := Py.VStr n]> ∅))
  = Py.Ok (AgentStatus.new n).
Proof.
  split.
  - intros H. unfold AgentStatus.from_dict, Py.getitem. rewrite H. reflexivity.
  - repeat split.
Qed.

Lemma agent_from_dict_defaults_witness :
  AgentStatus.from_dict (<["is_active" := Py.VBool true]> ∅)
  = Py.Raise (Py.KeyError "name").
Proof.
  apply (agent_from_dict_defaults (<["is_active" := Py.VBool true]> ∅) "").
  reflexivity.
Defined.

(** X27.  [Alert.from_dict] requires the timestamp, severity, metric,
    message, value and threshold entries: a serialized alert that lacks one
    of them raises [KeyError] for that key.  The agent entry is optional:
    without it the alert reads back as a team-level alert, every other
    field unchanged. *)
Theorem alert_from_dict_keys (al : Alert.t) (key : string) :
  DateTime.valid (Alert.timestamp al) = true ->
  (In key ["timestamp"; "severity"; "metric"; "message"; "value"; "threshold"] ->
   Alert.from_dict (delete key (Alert.to_dict al)) = Py.Raise (Py.KeyError key)) /\
  Alert.from_dict (delete "agent" (Alert.to_dict al))
  = Py.Ok (Alert.mk (Alert.timestamp al) (Alert.severity al) None (Alert.metric al)
             (Alert.message al) (Alert.value al) (Alert.threshold al)).
Proof.
  intros Hv. destruct al as [ts sev ag met msg v th].
  cbn [Alert.timestamp Alert.severity Alert.agent Alert.metric Alert.message
       Alert.value Alert.threshold] in *.
  split.
  - intros Hk. simpl in Hk.
    unfold Alert.from_dict, Alert.to_dict, Py.getitem, Py.get.
    cbn [Alert.timestamp Alert.severity Alert.agent Alert.metric Alert.message
         Alert.value Alert.threshold].
    repeat (destruct Hk as [<-|Hk]); try contradiction;
      repeat (rewrite lookup_delete_eq
              || (rewrite lookup_delete_ne by discriminate)
              || rewrite lookup_insert_eq
              || (rewrite lookup_insert_ne by discriminate));
      cbn [mbind result_bind Py.bind Py.as_str];
      rewrite ?fromisoformat_isoformat by exact Hv;
      try reflexivity; destruct ag; reflexivity.
  - unfold Alert.from_dict, Alert.to_dict, Py.getitem, Py.get.
    cbn [Alert.timestamp Alert.severity Alert.agent Alert.metric Alert.message
         Alert.value Alert.threshold].
    repeat (rewrite lookup_delete_eq
            || (rewrite lookup_delete_ne by discriminate)
            || rewrite lookup_insert_eq
            || (rewrite lookup_insert_ne by discriminate)).
    cbn [mbind result_bind Py.bind Py.as_str].
    rewrite fromisoformat_isoformat by exact Hv.
    reflexivity.
Qed.

Lemma alert_from_dict_keys_witness :
  let al := sample_alert (Some "FORGE") "latency" in
  Alert.from_dict (delete "severity" (Alert.to_dict al))
  = Py.Raise (Py.KeyError "severity") /\
  Alert.from_dict (delete "agent" (Alert.to_dict al))
  = Py.Ok (sample_alert None "latency").
Proof.
  intros al.
  destruct (alert_from_dict_keys al "severity") as (H1 & H2); [reflexivity|].
  split; [apply H1; simpl; tauto|exact H2].
Defined.

End ReadingDictionaries.

(** ** Import adapters *)

Section Imports.

Import TeamCoherenceMonitor.

(** The loop of an import: the events that name an agent are applied in
    order and counted; the others are skipped. *)
Lemma import_fold
    (step : Py.result (t * Z) -> gmap string Py.value -> Py.result (t * Z))
    (effect : t -> string -> gmap string Py.value -> t)
    (ok : gmap string Py.value -> Prop) :
  (forall st c e, event_named e = false -> step (Py.Ok (st, c)) e = Py.Ok (st, c)) ->
  (forall st c e, ok e -> event_named e = true ->
     exists s, Py.get e "agent" Py.VNone = Py.VStr s /\
               step (Py.Ok (st, c)) e = Py.Ok (effect st s e, (c + 1)%Z)) ->
  forall events st c,
    Forall ok events ->
    fold_left step events (Py.Ok (st, c))
    = Py.Ok (fold_left (apply_event effect) events st,
             (c + Z.of_nat (length (List.filter event_named events)))%Z).
Proof.
  intros Hskip Hstep events.
  induction events as [|e events IH]; intros st c Hall.
  - simpl. f_equal. f_equal. lia.
  - inversion Hall as [|? ? He Hrest]; subst.
    cbn [fold_left List.filter].
    destruct (event_named e) eqn:En.
    + destruct (Hstep st c e He En) as (s & Hs & ->).
      rewrite IH by exact Hrest.
      assert (Ea : apply_event effect st e = effect st s e).
      { unfold apply_event. rewrite Hs, En. reflexivity. }
      rewrite Ea. f_equal. f_equal. cbn [length]. lia.
    + rewrite Hskip by exact En.
      rewrite IH by exact Hrest.
      assert (Ea : apply_event effect st e = st).
      { unfold apply_event. rewrite En.
        destruct (Py.get e "agent" Py.VNone); reflexivity. }
      rewrite Ea. reflexivity.
Qed.

Lemma names_agent_named (name : string) (e : gmap string Py.value) (s : string) :
  Py.get e "agent" Py.VNone = Py.VStr s -> event_named e = true ->
  names_agent name e = String.eqb (Py.upper s) (Py.upper name).
Proof.
  unfold names_agent, event_named. intros ->. simpl. intros ->. reflexivity.
Qed.

Lemma names_agent_unnamed (name : string) (e : gmap string Py.value) :
  event_named e = false -> names_agent name e = false.
Proof.
  unfold names_agent, event_named.
  destruct (Py.get e "agent" Py.VNone); try reflexivity.
  simpl. intros ->. reflexivity.
Qed.

(** A counter of an agent after an update of the record a name refers to. *)
Lemma counter_update (field : AgentStatus.t -> Z) (st : t) (s name : string)
    (f : AgentStatus.t -> AgentStatus.t) (delta : Z) :
  (forall n, field (AgentStatus.new n) = 0%Z) ->
  (forall agent, field (f agent) = (field agent + delta)%Z) ->
  counter_of field (update_agent st s f) name
  = (counter_of field st name
     + (if String.eqb (Py.upper s) (Py.upper name) then delta else 0))%Z.
Proof.
  intros Hnew Hf. unfold counter_of.
  destruct (String.eqb_spec (Py.upper s) (Py.upper name)) as [E|E].
  - assert (Hg : forall st', get_agent st' name = get_agent st' s).
    { intros st'. unfold get_agent. rewrite E. reflexivity. }
    rewrite !Hg, get_agent_update, register_agent_record, Hf.
    destruct (get_agent st s); [reflexivity|]. rewrite Hnew. reflexivity.
  - rewrite get_agent_update_other by congruence. lia.
Qed.

(** A counter after a whole import, when every event adds [weight] to the
    counter of the agent it names. *)
Lemma counter_after_import (field : AgentStatus.t -> Z)
    (effect : t -> string -> gmap string Py.value -> t)
    (weight : gmap string Py.value -> Z) (name : string) :
  (forall st s e,
     counter_of field (effect st s e) name
     = (counter_of field st name
        + (if String.eqb (Py.upper s) (Py.upper name) then weight e else 0))%Z) ->
  forall events st,
    counter_of field (fold_left (apply_event effect) events st) name
    = (counter_of field st name + named_sum name weight events)%Z.
Proof.
  intros Heff events.
  induction events as [|e events IH]; intros st.
  - unfold named_sum. simpl. lia.
  - cbn [fold_left]. rewrite IH.
    unfold named_sum. cbn [List.map fold_right].
    fold (named_sum name weight events).
    destruct (event_named e) eqn:En.
    + destruct (Py.get e "agent" Py.VNone) as [| | | |s|] eqn:Eg.
      5: { assert (Ea : apply_event effect st e = effect st s e).
           { unfold apply_event. rewrite Eg, En. reflexivity. }
           rewrite Ea, Heff, (names_agent_named name e s Eg En). lia. }
      all: assert (Ea : apply_event effect st e = st)
             by (unfold apply_event; rewrite Eg; reflexivity);
           assert (En' : names_agent name e = false)
             by (unfold names_agent; rewrite Eg; reflexivity);
           rewrite Ea, En'; lia.
    + assert (Ea : apply_event effect st e = st).
      { unfold apply_event. rewrite En.
        destruct (Py.get e "agent" Py.VNone); reflexivity. }
      rewrite Ea, (names_agent_unnamed name e En). lia.
Qed.


Lemma named_sum_cons (name : string) (weight : gmap string Py.value -> Z)
    (e : gmap string Py.value) (events : list (gmap string Py.value)) :
  named_sum name weight (e :: events)
  = ((if names_agent name e then weight e else 0) + named_sum name weight events)%Z.
Proof. reflexivity. Qed.


(** X28.  [import_mentionguard_data] reads the list under "events" (none
    when the key is absent).  When every event that names an agent names it
    by a string, the import succeeds, returns the number of events that name
    an agent, and raises, for every name, the mentions-received counter of
    its agent by the number of events naming it and the
    mentions-acknowledged counter by the number of those flagged as
    acknowledged; events without agent are skipped. *)
Theorem import_mentionguard_counts (m : t)
    (data : gmap string (list (gmap string Py.value))) :
  Forall event_typed (imported data "events") ->
  exists m',
    import_mentionguard_data m data
    = Py.Ok (m', named_count (imported data "events")) /\
    forall name,
      counter_of AgentStatus.mentions_received m' name
      = (counter_of AgentStatus.mentions_received m name
         + named_sum name (fun _ => 1) (imported data "events"))%Z /\
      counter_of AgentStatus.mentions_acknowledged m' name
      = (counter_of AgentStatus.mentions_acknowledged m name
         + named_sum name (fun e => if event_acknowledged e then 1 else 0)
             (imported data "events"))%Z.
Proof.
  intros Hall.
  set (effect := fun (st : t) (s : string) (e : gmap string Py.value) =>
                   record_mention st s (event_acknowledged e)).
  exists (fold_left (apply_event effect) (imported data "events") m).
  split.
  - unfold import_mentionguard_data. fold (imported data "events").
    rewrite (import_fold _ effect event_typed); [reflexivity| | |exact Hall].
    + intros st c e En. unfold event_named in En. simpl. rewrite En. reflexivity.
    + intros st c e He En. destruct (He En) as [s Hs].
      exists s. split; [exact Hs|].
      unfold event_named in En. simpl. rewrite En, Hs. reflexivity.
  - intros name. split.
    + apply counter_after_import. intros st s e.
      unfold effect, record_mention. apply counter_update; [reflexivity|].
      intros agent. destruct (event_acknowledged e); reflexivity.
    + apply counter_after_import. intros st s e.
      unfold effect, record_mention.
      rewrite (counter_update _ _ _ _ _ (if event_acknowledged e then 1 else 0)%Z).
      * reflexivity.
      * reflexivity.
      * intros agent. destruct (event_acknowledged e); simpl; lia.
Qed.

Lemma import_mentionguard_counts_witness :
  let data : gmap string (list (gmap string Py.value)) :=
    {[ "events" :=
         [ {[ "agent" := Py.VStr "forge"; "acknowledged" := Py.VBool true ]};
           {[ "acknowledged" := Py.VBool true ]};
           {[ "agent" := Py.VStr "FORGE" ]} ] ]} in
  Forall event_typed (imported data "events") /\
  exists m',
    import_mentionguard_data (new Thresholds.default) data
    = Py.Ok (m', named_count (imported data "events")) /\
    forall name,
      counter_of AgentStatus.mentions_received m' name
      = (counter_of AgentStatus.mentions_received (new Thresholds.default) name
         + named_sum name (fun _ => 1) (imported data "events"))%Z /\
      counter_of AgentStatus.mentions_acknowledged m' name
      = (counter_of AgentStatus.mentions_acknowledged (new Thresholds.default) name
         + named_sum name (fun e => if event_acknowledged e then 1 else 0)
             (imported data "events"))%Z.
Proof.
  intros data.
  assert (H : Forall event_typed (imported data "events")).
  { repeat constructor; intros En; vm_compute in En; try discriminate;
      eexists; vm_compute; reflexivity. }
  split; [exact H|].
  exact (import_mentionguard_counts (new Thresholds.default) data H).
Defined.

(** X29.  [import_liveaudit_data] reads the list under "issues".  When
    every issue that names an agent names it by a string, the import
    succeeds, returns the number of issues that name an agent, and for every
    name raises both the claims counter and the error counter of its agent
    by the number of issues naming it, while the correct-claims counter
    stays as it was. *)
Theorem import_liveaudit_counts (m : t)
    (data : gmap string (list (gmap string Py.value))) :
  Forall event_typed (imported data "issues") ->
  exists m',
    import_liveaudit_data m data
    = Py.Ok (m', named_count (imported data "issues")) /\
    forall name,
      counter_of AgentStatus.total_claims m' name
      = (counter_of AgentStatus.total_claims m name
         + named_sum name (fun _ => 1) (imported data "issues"))%Z /\
      counter_of AgentStatus.errors_detected m' name
      = (counter_of AgentStatus.errors_detected m name
         + named_sum name (fun _ => 1) (imported data "issues"))%Z /\
      counter_of AgentStatus.correct_claims m' name
      = counter_of AgentStatus.correct_claims m name.
Proof.
  intros Hall.
  set (effect := fun (st : t) (s : string) (e : gmap string Py.value) =>
                   record_error (record_claim st s false) s).
  exists (fold_left (apply_event effect) (imported data "issues") m).
  split.
  - unfold import_liveaudit_data. fold (imported data "issues").
    rewrite (import_fold _ effect event_typed); [reflexivity| | |exact Hall].
    + intros st c e En. unfold event_named in En. simpl. rewrite En. reflexivity.
    + intros st c e He En. destruct (He En) as [s Hs].
      exists s. split; [exact Hs|].
      unfold event_named in En. simpl. rewrite En, Hs. reflexivity.
  - intros name. split; [|split].
    + apply counter_after_import. intros st s e.
      unfold effect, record_error, record_claim.
      rewrite (counter_update _ _ _ _ _ 0%Z); [|reflexivity|intros; simpl; lia].
      rewrite (counter_update _ _ _ _ _ 1%Z); [|reflexivity|intros; simpl; lia].
      destruct (String.eqb (Py.upper s) (Py.upper name)); lia.
    + apply counter_after_import. intros st s e.
      unfold effect, record_error, record_claim.
      rewrite (counter_update _ _ _ _ _ 1%Z); [|reflexivity|intros; simpl; lia].
      rewrite (counter_update _ _ _ _ _ 0%Z); [|reflexivity|intros; simpl; lia].
      destruct (String.eqb (Py.upper s) (Py.upper name)); lia.
    + rewrite (counter_after_import AgentStatus.correct_claims effect
                 (fun _ => 0%Z) name).
      * assert (Hz : forall l, named_sum name (fun _ => 0%Z) l = 0%Z).
        { induction l as [|e l IH]; [reflexivity|].
          rewrite named_sum_cons, IH. destruct (names_agent name e); reflexivity. }
        rewrite Hz. lia.
      * intros st s e. unfold effect, record_error, record_claim.
        rewrite (counter_update _ _ _ _ _ 0%Z); [|reflexivity|intros; simpl; lia].
        rewrite (counter_update _ _ _ _ _ 0%Z); [|reflexivity|intros; simpl; lia].
        destruct (String.eqb (Py.upper s) (Py.upper name)); lia.
Qed.

Lemma import_liveaudit_counts_witness :
  let data : gmap string (list (gmap string Py.value)) :=
    {[ "issues" :=
         [ {[ "agent" := Py.VStr "atlas" ]};
           {[ "agent" := Py.VNone ]} ] ]} in
  Forall event_typed (imported data "issues") /\
  exists m',
    import_liveaudit_data (new Thresholds.default) data
    = Py.Ok (m', named_count (imported data "issues")) /\
    forall name,
      counter_of AgentStatus.total_claims m' name
      = (counter_of AgentStatus.total_claims (new Thresholds.default) name
         + named_sum name (fun _ => 1) (imported data "issues"))%Z /\
      counter_of AgentStatus.errors_detected m' name
      = (counter_of AgentStatus.errors_detected (new Thresholds.default) name
         + named_sum name (fun _ => 1) (imported data "issues"))%Z /\
      counter_of AgentStatus.correct_claims m' name
      = counter_of AgentStatus.correct_claims (new Thresholds.default) name.
Proof.
  intros data.
  assert (H : Forall event_typed (imported data "issues")).
  { repeat constructor; intros En; vm_compute in En; try discriminate;
      eexists; vm_compute; reflexivity. }
  split; [exact H|].
  exact (import_liveaudit_counts (new Thresholds.default) data H).
Defined.

Local Open Scope Q_scope.









Local Close Scope Q_scope.





End Imports.
